(** * EnergyGauge automation: extraction and quality-gating core

    A shallow embedding of [code/energy_gauge_automation.py]: the two OCR
    engine adapters and the multi-engine extractor ([OCRProcessor]), the
    regex field extractor, the duplicate detector ([DuplicateDetector]),
    the OCR enrichment step and the batch drivers of
    [EnergyGaugeAutomation].

    Python values are modelled as follows.
    - A dict loaded from JSON is a [gmap string json]; JSON numbers are
      Python ints ([Z]) or floats ([pyfloat]).
    - A call that may raise is a [result]: [Return v] or [Raise exc].
    - Methods that read or write [self] are written in the monad [M S],
      state passing over the object's fields with exceptions.
    - What the program gets from outside (OCR back ends, the file system,
      MD5, [json.dumps], [float()] and [str()] of a float) is a parameter.
    - Logging calls are left out: they change nothing that is read back. *)

From Stdlib Require Import ZArith QArith String Ascii List Lia.
From Stdlib Require Import DecimalString DecimalPos DecimalN.
From stdpp Require Import gmap strings list fin_maps sorting.

#[local] Set Warnings "-register-all".
#[local] Open Scope string_scope.

(** ** Python calls

    An exception is named by its class; only subclasses of [Exception]
    are modelled, which is what [except Exception] catches. *)

Inductive result (A : Type) : Type :=
  | Return (a : A)
  | Raise (exc : string).
Arguments Return {A} a.
Arguments Raise {A} exc.

(** [try: body  except Exception: handler] *)
Definition try_except {A} (body : result A) (handler : string -> result A) : result A :=
  match body with
  | Return a => Return a
  | Raise exc => handler exc
  end.

#[global] Instance result_ret : MRet result := fun _ a => Return a.
#[global] Instance result_bind : MBind result := fun _ _ f r =>
  match r with
  | Return a => f a
  | Raise exc => Raise exc
  end.

(** Methods of an object with fields [S]: the fields go in and come out,
    also when the call raises (a mutation made before the raise stays). *)
Definition M (S A : Type) : Type := S -> result A * S.

#[global] Instance M_ret {S} : MRet (M S) := fun _ a s => (Return a, s).
#[global] Instance M_bind {S} : MBind (M S) := fun _ _ f m s =>
  match m s with
  | (Return a, s') => f a s'
  | (Raise exc, s') => (Raise exc, s')
  end.

Definition get_self {S} : M S S := fun s => (Return s, s).
Definition modify_self {S} (f : S -> S) : M S unit := fun s => (Return tt, f s).
Definition lift {S A} (r : result A) : M S A := fun s => (r, s).

(** [try: body  except Exception: handler] inside a method. *)
Definition try_except_M {S A} (body : M S A) (handler : string -> M S A) : M S A :=
  fun s =>
    match body s with
    | (Return a, s') => (Return a, s')
    | (Raise exc, s') => handler exc s'
    end.

(** ** Python floats and JSON values *)

(** The float operations the program uses, supplied from outside:
    [float(s)] for a [str] ([None]: [ValueError]), [str(x)], and [bool(x)]. *)
Class PyFloat := {
  pyfloat : Type;
  float_of_str : string -> option pyfloat;
  str_of_float : pyfloat -> string;
  float_nonzero : pyfloat -> bool
}.

Section Json.
Context `{PyFloat}.

(** What [json.load] returns. *)
Inductive json : Type :=
  | JNull
  | JBool (b : bool)
  | JInt (n : Z)
  | JFloat (x : pyfloat)
  | JStr (s : string)
  | JArr (l : list json)
  | JObj (m : gmap string json).

(** Python truth value ([if v:], [not v], [a and b]). *)
Definition truthy (v : json) : bool :=
  match v with
  | JNull => false
  | JBool b => b
  | JInt n => negb (n =? 0)%Z
  | JFloat x => float_nonzero x
  | JStr s => negb (String.eqb s "")
  | JArr l => negb (Nat.eqb (length l) 0)
  | JObj m => negb (Nat.eqb (size m) 0)
  end.

(** [d.get(key)]: [None] when the key is missing. *)
Definition dict_get (d : gmap string json) (key : string) : json :=
  default JNull (d !! key).

End Json.

(** ** ConfigManager *)

Record ConfigManager := {
  ocr_confidence_threshold : Q;
  duplicate_detection_enabled : bool
}.

(** The values [ConfigManager.__init__] sets. *)
Definition default_config : ConfigManager :=
  {| ocr_confidence_threshold := 6 # 10; duplicate_detection_enabled := true |}.

(** ** DuplicateDetector *)

Section DuplicateDetector.
Context `{PyFloat}.

(** [processed_hashes] is the in-memory set; [hash_file] is the list
    under ['hashes'] in [archive/processed_hashes.json] ([None]: no such
    file, or one that [json.load] rejects). *)
Record detector := {
  processed_hashes : gset string;
  hash_file : option (list string)
}.

(** The outside world of the detector.
    - [os_path_exists v] is [os.path.exists(v)]; [v] is whatever the record
      holds under ['floor_plan_image'], so the call may raise.
    - [read_file v] is the whole [open(v, "rb")] read loop.
    - [md5_hexdigest] is [hashlib.md5(bytes).hexdigest()].
    - [json_dumps_sorted] is [json.dumps(d, sort_keys=True)]; with sorted
      keys its result depends on the mapping only, not on insertion order.
    - [hash_file_writable] says whether writing the hash file succeeds. *)
Record detector_env := {
  os_path_exists : json -> result bool;
  read_file : json -> result string;
  md5_hexdigest : string -> string;
  json_dumps_sorted : gmap string json -> string;
  hash_file_writable : bool
}.

Variable env : detector_env.
Variable config : ConfigManager.

Definition load_processed_hashes : M detector unit :=
  modify_self (fun d =>
    match hash_file d with
    | Some hashes => {| processed_hashes := list_to_set hashes; hash_file := hash_file d |}
    | None => d
    end).

(** A failed write is caught and logged. *)
Definition save_processed_hashes : M detector unit :=
  try_except_M
    (if hash_file_writable env
     then modify_self (fun d => {| processed_hashes := processed_hashes d;
                                   hash_file := Some (elements (processed_hashes d)) |})
     else lift (Raise "OSError"))
    (fun _ => mret tt).

Definition calculate_hash (file_path : json) : string :=
  match try_except (bytes ← read_file env file_path; Return (md5_hexdigest env bytes))
                   (fun _ => Return "") with
  | Return h => h
  | Raise _ => ""
  end.

(** [floor_plan_path and os.path.exists(floor_plan_path)] as a condition. *)
Definition floor_plan_exists (floor_plan_path : json) : result bool :=
  if truthy floor_plan_path then os_path_exists env floor_plan_path else Return false.

(** The record without its identifier and image path, serialised with
    sorted keys and digested. *)
Definition content_hash (input_data : gmap string json) : string :=
  let content_for_hash := delete "floor_plan_image" (delete "lot_id" input_data) in
  let content_json := json_dumps_sorted env content_for_hash in
  md5_hexdigest env content_json.

Definition is_duplicate (input_data : gmap string json) : M detector bool :=
  if negb (duplicate_detection_enabled config) then mret false
  else
    let floor_plan_path := dict_get input_data "floor_plan_image" in
    present ← lift (floor_plan_exists floor_plan_path);
    d ← get_self;
    if present && bool_decide (calculate_hash floor_plan_path ∈ processed_hashes d)
    then mret true
    else
      if bool_decide (content_hash input_data ∈ processed_hashes d)
      then mret true
      else mret false.

Definition add_hash (h : string) : M detector unit :=
  modify_self (fun d => {| processed_hashes := {[ h ]} ∪ processed_hashes d;
                           hash_file := hash_file d |}).

Definition mark_as_processed (input_data : gmap string json) : M detector unit :=
  let floor_plan_path := dict_get input_data "floor_plan_image" in
  present ← lift (floor_plan_exists floor_plan_path);
  (if (present : bool)
   then
     let file_hash := calculate_hash floor_plan_path in
     if negb (String.eqb file_hash "") then add_hash file_hash else mret tt
   else mret tt : M detector unit);;
  add_hash (content_hash input_data);;
  save_processed_hashes.

End DuplicateDetector.

(** ** Python [str] methods

    A string is a sequence of code points below 256; the tables below are
    Python's for that range. *)

Definition code (c : ascii) : nat := nat_of_ascii c.

Definition between (lo n hi : nat) : bool := Nat.leb lo n && Nat.leb n hi.

(** [c.isspace()], which is also what [\s] matches in a [str] pattern. *)
Definition py_isspace (c : ascii) : bool :=
  let n := code c in
  between 9 n 13 || between 28 n 32 || Nat.eqb n 133 || Nat.eqb n 160.

Definition lower_char (c : ascii) : ascii :=
  let n := code c in
  if between 65 n 90 || (between 192 n 222 && negb (Nat.eqb n 215))
  then ascii_of_nat (n + 32)
  else c.

(** [s.lower()] *)
Fixpoint py_lower (s : string) : string :=
  match s with
  | EmptyString => EmptyString
  | String c rest => String (lower_char c) (py_lower rest)
  end.

Fixpoint lstrip (s : list ascii) : list ascii :=
  match s with
  | c :: rest => if py_isspace c then lstrip rest else s
  | [] => []
  end.

(** [s.strip()] *)
Definition py_strip (s : string) : string :=
  string_of_list_ascii (rev (lstrip (rev (lstrip (list_ascii_of_string s))))).

(** [s.replace(c, by)] for a one-character [c]. *)
Fixpoint py_replace (c : ascii) (by_ : string) (s : string) : string :=
  match s with
  | EmptyString => EmptyString
  | String x rest =>
      if Ascii.eqb x c then by_ +:+ py_replace c by_ rest
      else String x (py_replace c by_ rest)
  end.

(** [sep.join(parts)] *)
Fixpoint py_join (sep : string) (parts : list string) : string :=
  match parts with
  | [] => ""
  | [p] => p
  | p :: rest => p +:+ sep +:+ py_join sep rest
  end.

(** [bool(s)] for a [str]. *)
Definition nonempty (s : string) : bool := negb (String.eqb s "").

(** ** OCRProcessor: the engine adapters *)

(** The outside world of the OCR processor. Confidences are finite floats,
    written as the rationals they denote; [round_float] rounds the exact
    result of a division or sum to the nearest float.
    - [image_to_data_conf p]: [pytesseract.image_to_data(p, ...)] and its
      ['conf'] column, each entry given by what [int(conf)] does on it.
    - [image_to_string p]: [pytesseract.image_to_string(p)].
    - [readtext p]: [easyocr_reader.readtext(p)], as (text, confidence)
      per detected region.
    - [cv2_imread p]: whether [cv2.imread(p)] decoded an image.
    - [cv2_binarize p out]: grayscale, Otsu threshold and [cv2.imwrite]. *)
Record ocr_env := {
  tesseract_available : bool;
  easyocr_available : bool;
  easyocr_reader : bool;
  opencv_available : bool;
  image_exists : string -> bool;
  processed_exists : string -> bool;
  cv2_imread : string -> result bool;
  cv2_binarize : string -> string -> result unit;
  image_to_data_conf : string -> result (list (result Z));
  image_to_string : string -> result string;
  os_remove : string -> result unit;
  readtext : string -> result (list (string * Q));
  round_float : Q -> Q
}.

Section Adapters.
Variable env : ocr_env.

Definition preprocess_image (image_path : string) : string :=
  if negb (opencv_available env) then image_path
  else
    match
      try_except
        (decoded ← cv2_imread env image_path;
         if negb decoded then Return image_path
         else
           let processed_path := py_replace "." "_processed." image_path in
           cv2_binarize env image_path processed_path;;
           Return processed_path)
        (fun _ => Return image_path)
    with
    | Return p => p
    | Raise _ => image_path
    end.

(** [[int(conf) for conf in data['conf'] if int(conf) > 0]] *)
Fixpoint positive_confidences (column : list (result Z)) : result (list Z) :=
  match column with
  | [] => Return []
  | conf :: rest =>
      n ← conf;
      if (0 <? n)%Z
      then (m ← conf; tail ← positive_confidences rest; Return (m :: tail))
      else positive_confidences rest
  end.

Definition sum_Z (l : list Z) : Z := fold_left Z.add l 0%Z.

(** The body of the [try] in [extract_with_tesseract]. *)
Definition tesseract_body (image_path : string) : result (string * Q) :=
  let processed_path := preprocess_image image_path in
  column ← image_to_data_conf env processed_path;
  confidences ← positive_confidences column;
  let avg_confidence :=
    match confidences with
    | [] => 0%Q
    | _ => round_float env (inject_Z (sum_Z confidences) / inject_Z (Z.of_nat (length confidences)))
    end in
  text ← image_to_string env processed_path;
  (if negb (String.eqb processed_path image_path) && processed_exists env processed_path
   then os_remove env processed_path
   else Return tt);;
  Return (py_strip text, round_float env (avg_confidence / 100)).

Definition extract_with_tesseract (image_path : string) : result (string * Q) :=
  if negb (tesseract_available env) then Return ("", 0%Q)
  else try_except (tesseract_body image_path) (fun _ => Return ("", 0%Q)).

(** [sum(confidences)] over floats: each addition rounds. *)
Definition sum_float (l : list Q) : Q :=
  fold_left (fun acc c => round_float env (acc + c)) l 0%Q.

(** The body of the [try] in [extract_with_easyocr]. *)
Definition easyocr_body (image_path : string) : result (string * Q) :=
  results ← readtext env image_path;
  match results with
  | [] => Return ("", 0%Q)
  | _ =>
      let all_text := map fst results in
      let confidences := map snd results in
      let combined_text := py_join " " all_text in
      let avg_confidence :=
        match confidences with
        | [] => 0%Q
        | _ => round_float env (sum_float confidences / inject_Z (Z.of_nat (length confidences)))
        end in
      Return (py_strip combined_text, avg_confidence)
  end.

Definition extract_with_easyocr (image_path : string) : result (string * Q) :=
  if negb (easyocr_available env) || negb (easyocr_reader env) then Return ("", 0%Q)
  else try_except (easyocr_body image_path) (fun _ => Return ("", 0%Q)).

End Adapters.

(** ** OCRProcessor: the multi-engine extractor *)

(** The dict [extract_text] returns. *)
Record ocr_result := {
  text : string;
  confidence : Q;
  method : string;
  success : bool
}.

Section ExtractText.
Variable env : ocr_env.
Variable config : ConfigManager.

(** The state of [extract_text] is the list of engines it has run, oldest
    first; the program keeps no such list, it is here to say which engines
    a call consulted. *)
Definition consult (engine : string) (outcome : result (string * Q))
  : M (list string) (string * Q) :=
  modify_self (fun log : list string => (log ++ [engine])%list);;
  lift outcome.

(** [x >= y] on floats. *)
Definition float_ge (x y : Q) : bool := Qle_bool y x.

Definition extract_text (image_path : string) : M (list string) ocr_result :=
  if negb (image_exists env image_path)
  then mret {| text := ""; confidence := 0; method := "none"; success := false |}
  else
    let confidence_threshold := ocr_confidence_threshold config in
    tesseract ← consult "tesseract" (extract_with_tesseract env image_path);
    let tesseract_text := fst (tesseract : string * Q) in
    let tesseract_conf := snd tesseract in
    if float_ge tesseract_conf confidence_threshold && nonempty tesseract_text
    then mret {| text := tesseract_text; confidence := tesseract_conf;
                 method := "tesseract"; success := true |}
    else
      easyocr ← consult "easyocr" (extract_with_easyocr env image_path);
      let easyocr_text := fst (easyocr : string * Q) in
      let easyocr_conf := snd easyocr in
      if float_ge easyocr_conf confidence_threshold && nonempty easyocr_text
      then mret {| text := easyocr_text; confidence := easyocr_conf;
                   method := "easyocr"; success := true |}
      else
        let best :=
          if float_ge tesseract_conf easyocr_conf
          then ("tesseract", tesseract_text, tesseract_conf)
          else ("easyocr", easyocr_text, easyocr_conf) in
        mret {| text := snd (fst best); confidence := snd best; method := fst (fst best);
                success := float_ge (snd best) confidence_threshold |}.

End ExtractText.

(** ** The part of Python's [re] the field patterns use

    Literal characters, [\s], [\.], bracketed sets of characters, ranges
    and [\s], the greedy quantifiers [*], [+] and [?] on one character,
    and capture groups. Matching backtracks as [re] does: a quantifier
    takes as many characters as it can and gives them back one at a time;
    [search] returns the match at the leftmost position that has one. *)
Module Re.

Inductive item : Type :=
  | IChar (c : ascii)
  | IRange (lo hi : ascii)
  | ISpace.

Inductive quant : Type := One | Opt | Star | Plus.

Inductive tok : Type :=
  | TAtom (set : list item) (q : quant)
  | TOpen
  | TClose.

(** *** Reading a pattern *)

Fixpoint parse_set (s : list ascii) (acc : list item) : option (list item * list ascii) :=
  match s with
  | [] => None
  | "]"%char :: rest => Some (rev acc, rest)
  | "\"%char :: "s"%char :: rest => parse_set rest (ISpace :: acc)
  | "\"%char :: _ => None
  | lo :: "-"%char :: hi :: rest =>
      if Ascii.eqb hi "]" then Some (rev (IChar "-" :: IChar lo :: acc), rest)
      else parse_set rest (IRange lo hi :: acc)
  | c :: rest => parse_set rest (IChar c :: acc)
  end.

Definition parse_quant (s : list ascii) : quant * list ascii :=
  match s with
  | "*"%char :: rest => (Star, rest)
  | "+"%char :: rest => (Plus, rest)
  | "?"%char :: rest => (Opt, rest)
  | _ => (One, s)
  end.

Definition special (c : ascii) : bool :=
  existsb (Ascii.eqb c)
    ["."; "^"; "$"; "*"; "+"; "?"; "{"; "}"; "|"; "]"; "\"]%char.

Definition atom (set : list item) (rest : list ascii) : list tok * list ascii :=
  let (q, rest') := parse_quant rest in ([TAtom set q], rest').

Fixpoint parse (fuel : nat) (s : list ascii) : option (list tok) :=
  match fuel with
  | O => match s with [] => Some [] | _ => None end
  | S fuel' =>
      let continue (r : list tok * list ascii) :=
        option_map (app (fst r)) (parse fuel' (snd r)) in
      match s with
      | [] => Some []
      | "("%char :: rest => continue ([TOpen], rest)
      | ")"%char :: rest => continue ([TClose], rest)
      | "["%char :: rest =>
          match parse_set rest [] with
          | Some (set, rest') => continue (atom set rest')
          | None => None
          end
      | "\"%char :: "s"%char :: rest => continue (atom [ISpace] rest)
      | "\"%char :: "."%char :: rest => continue (atom [IChar "."] rest)
      | c :: rest => if special c then None else continue (atom [IChar c] rest)
      end
  end.

Definition compile (pattern : string) : option (list tok) :=
  let s := list_ascii_of_string pattern in
  parse (length s) s.

(** *** Matching *)

Definition item_matches (c : ascii) (i : item) : bool :=
  match i with
  | IChar x => Ascii.eqb c x
  | IRange lo hi => between (code lo) (code c) (code hi)
  | ISpace => py_isspace c
  end.

Definition set_matches (set : list item) (c : ascii) : bool :=
  existsb (item_matches c) set.

Section Match.
Context {R : Type}.

(** Zero or more characters of [set], longest first, then [k]. *)
Fixpoint star (set : list item) (s : list ascii) (k : list ascii -> option R) : option R :=
  match s with
  | c :: rest =>
      if set_matches set c
      then match star set rest k with
           | Some r => Some r
           | None => k s
           end
      else k s
  | [] => k s
  end.

Definition quantified (set : list item) (q : quant) (s : list ascii)
    (k : list ascii -> option R) : option R :=
  match q, s with
  | One, c :: rest => if set_matches set c then k rest else None
  | One, [] => None
  | Opt, c :: rest =>
      if set_matches set c
      then match k rest with Some r => Some r | None => k s end
      else k s
  | Opt, [] => k s
  | Star, _ => star set s k
  | Plus, c :: rest => if set_matches set c then star set rest k else None
  | Plus, [] => None
  end.

End Match.

(** The text between the positions where the group opened and closed,
    each position given by what was left of the input there. *)
Definition consumed (from to : list ascii) : list ascii :=
  firstn (length from - length to) from.

(** Matches [p] at the start of [s]; the result is group 1. [opened] is
    the input left when the group opened, [group] the group's text once
    it has closed. *)
Fixpoint run (p : list tok) (s : list ascii) (opened : list ascii)
    (group : option (list ascii)) : option (option (list ascii)) :=
  match p with
  | [] => Some group
  | TOpen :: p' => run p' s s group
  | TClose :: p' => run p' s opened (Some (consumed opened s))
  | TAtom set q :: p' => quantified set q s (fun s' => run p' s' opened group)
  end.

Fixpoint search_from (p : list tok) (s : list ascii) : option (option (list ascii)) :=
  match run p s s None with
  | Some g => Some g
  | None =>
      match s with
      | [] => None
      | _ :: rest => search_from p rest
      end
  end.

(** [m = re.search(pattern, s)] followed by [m.group(1)]: [None] when
    there is no match. Every pattern of the program has one group. *)
Definition search (pattern s : string) : option string :=
  match compile pattern with
  | Some p =>
      match search_from p (list_ascii_of_string s) with
      | Some (Some g) => Some (string_of_list_ascii g)
      | _ => None
      end
  | None => None
  end.

End Re.

(** ** OCRProcessor: the field extractor *)

(** The table [patterns] of [extract_field_from_text], in source order. *)
Definition patterns : list (string * list string) :=
  [ ("conditioned_floor_area",
      [ "floor\s*area[:\s]*([0-9,]+\.?[0-9]*)";
        "area[:\s]*([0-9,]+\.?[0-9]*)\s*sq\s*ft";
        "([0-9,]+\.?[0-9]*)\s*sq\s*ft" ]);
    ("tonnage",
      [ "([0-9]+\.?[0-9]*)\s*ton";
        "tonnage[:\s]*([0-9]+\.?[0-9]*)" ]);
    ("seer",
      [ "seer[:\s]*([0-9]+\.?[0-9]*)";
        "([0-9]+\.?[0-9]*)\s*seer" ]);
    ("u_factor",
      [ "u[:\s]*([0-9]+\.?[0-9]*)";
        "u-factor[:\s]*([0-9]+\.?[0-9]*)" ]);
    ("shgc",
      [ "shgc[:\s]*([0-9]+\.?[0-9]*)";
        "solar\s*heat\s*gain[:\s]*([0-9]+\.?[0-9]*)" ]) ].

(** [patterns.get(key, [])] *)
Fixpoint patterns_get (table : list (string * list string)) (key : string) : list string :=
  match table with
  | [] => []
  | (k, v) :: rest => if String.eqb k key then v else patterns_get rest key
  end.

Section FieldExtractor.
Context `{PyFloat}.

(** The [for pattern in field_patterns] loop; [text] is already
    lower-cased. A match whose group is not a float goes on to the next
    pattern. *)
Fixpoint first_parsed (field_patterns : list string) (text : string) : option string :=
  match field_patterns with
  | [] => None
  | pattern :: rest =>
      match Re.search pattern text with
      | Some group1 =>
          let value := py_replace "," "" group1 in
          match float_of_str value with
          | Some x => Some (str_of_float x)
          | None => first_parsed rest text
          end
      | None => first_parsed rest text
      end
  end.

Definition extract_field_from_text (text field_name : string) : option string :=
  let field_patterns := patterns_get patterns (py_lower field_name) in
  first_parsed field_patterns (py_lower text).

(** The group of the pattern's leftmost match in [text], if there is
    one, is not a float once its commas are removed. *)
Definition no_parsed_match (pattern text : string) : Prop :=
  match Re.search pattern text with
  | Some group1 => float_of_str (py_replace "," "" group1) = None
  | None => True
  end.

End FieldExtractor.

(** ** EnergyGaugeAutomation: OCR enrichment *)

Section Enhance.
Context `{PyFloat}.

(** [key in s] for a [str] [s]. *)
Fixpoint is_substring (key s : string) : bool :=
  String.prefix key s ||
  match s with
  | EmptyString => false
  | String _ rest => is_substring key rest
  end.

Definition is_str (key : string) (v : json) : bool :=
  match v with
  | JStr s => String.eqb s key
  | _ => false
  end.

(** [key in obj] *)
Definition py_contains (obj : json) (key : string) : result bool :=
  match obj with
  | JObj m => Return (bool_decide (is_Some (m !! key)))
  | JArr l => Return (existsb (is_str key) l)
  | JStr s => Return (is_substring key s)
  | JNull | JBool _ | JInt _ | JFloat _ => Raise "TypeError"
  end.

(** [obj[key]] for a [str] key. *)
Definition py_getitem (obj : json) (key : string) : result json :=
  match obj with
  | JObj m =>
      match m !! key with
      | Some v => Return v
      | None => Raise "KeyError"
      end
  | _ => Raise "TypeError"
  end.

(** [obj[key] = v]; the result is the object after the assignment. *)
Definition py_setitem (obj : json) (key : string) (v : json) : result json :=
  match obj with
  | JObj m => Return (JObj (<[key := v]> m))
  | _ => Raise "TypeError"
  end.

(** [key not in obj or not obj[key]] *)
Definition missing_or_falsy (obj : json) (key : string) : result bool :=
  present ← py_contains obj key;
  if negb present then Return true
  else (v ← py_getitem obj key; Return (negb (truthy v))).

(** The two blocks of [enhance_data_with_ocr] have one shape: the field
    [key] of [obj] is filled from the text when it is missing or falsy.
    The result is [obj] after the block. *)
Definition fill_field (key ocr_text : string) (obj : json) : result json :=
  missing ← missing_or_falsy obj key;
  if negb missing then Return obj
  else
    match extract_field_from_text ocr_text key with
    | Some value =>
        if nonempty value
        then
          match float_of_str value with
          | Some x => py_setitem obj key (JFloat x)
          | None => Raise "ValueError"
          end
        else Return obj
    | None => Return obj
    end.

(** The order in which Python iterates over the items of a dict (the
    order in which its keys were inserted), which a [gmap] does not
    keep: a listing of the keys of the dict. *)
Variable dict_order : gmap string json -> list string.

(** [for system_id, system_data in hvac_data.items()], as a method of
    [hvac_data]. *)
Fixpoint enhance_systems (ocr_text : string) (system_ids : list string)
  : M (gmap string json) unit :=
  match system_ids with
  | [] => mret tt
  | system_id :: rest =>
      hvac_data ← get_self;
      match (hvac_data : gmap string json) !! system_id with
      | Some system_data =>
          system_data' ← lift (fill_field "tonnage" ocr_text system_data);
          modify_self (insert system_id system_data');;
          enhance_systems ocr_text rest
      | None => enhance_systems ocr_text rest
      end
  end.

(** Runs [m] on the dict stored under [key] of [input_data] and keeps
    what it did to that dict, also when it raises. A missing key gives
    the default of [.get(key, {})], a dict nothing else refers to. *)
Definition on_section (key : string) (m : json -> result unit * json)
  : M (gmap string json) unit :=
  fun input_data =>
    match input_data !! key with
    | Some obj => let (r, obj') := m obj in (r, <[key := obj']> input_data)
    | None => (fst (m (JObj ∅)), input_data)
    end.

Definition enhance_building (ocr_text : string) (building_data : json) : result unit * json :=
  match fill_field "conditioned_floor_area" ocr_text building_data with
  | Return building_data' => (Return tt, building_data')
  | Raise exc => (Raise exc, building_data)
  end.

Definition enhance_hvac (ocr_text : string) (hvac_data : json) : result unit * json :=
  match hvac_data with
  | JObj systems =>
      let (r, systems') := enhance_systems ocr_text (dict_order systems) systems in
      (r, JObj systems')
  | _ => (Raise "AttributeError", hvac_data)
  end.

Definition enhance_data_with_ocr (ocr_text : string) : M (gmap string json) unit :=
  on_section "building_data" (enhance_building ocr_text);;
  on_section "hvac" (enhance_hvac ocr_text).

End Enhance.

(** ** QualityIndicator *)

Record QualityIndicator := {
  data_quality : string;
  system_health : string;
  current_lot : string;
  status_message : string;
  processed_lots : list (string * string)
}.

(** [s.upper()] on the status words, which are ASCII. *)
Definition upper_char (c : ascii) : ascii :=
  let n := code c in
  if between 97 n 122 then ascii_of_nat (n - 32) else c.

Fixpoint py_upper (s : string) : string :=
  match s with
  | EmptyString => EmptyString
  | String c rest => String (upper_char c) (py_upper rest)
  end.

Definition set_system_health (status message : string) (q : QualityIndicator)
  : QualityIndicator :=
  {| data_quality := data_quality q;
     system_health := py_upper status;
     current_lot := current_lot q;
     status_message := if nonempty message then message else status_message q;
     processed_lots := processed_lots q |}.

(** ** EnergyGaugeAutomation: the batch drivers *)

Section Batch.
Context `{PyFloat}.

(** What the drivers see of the automation object: the indicator, the
    [processing] flag of the GUI when one is attached, and the rest
    ([W]: detector, COM interface, files). *)
Variable W : Type.

Record automation := {
  quality_indicator : QualityIndicator;
  gui_processing : option bool;
  world : W
}.

(** [process_single_lot(input_file)]: the per-record pipeline. Its body is
    one [try] whose handler returns [False], so it returns a [bool]. *)
Variable process_single_lot : string -> automation -> bool * automation.

(** [self.gui and not self.gui.processing] *)
Definition stop_requested (a : automation) : bool :=
  match gui_processing a with
  | Some processing => negb processing
  | None => false
  end.

(** The [for input_file in input_files] loop with its two counters. *)
Fixpoint batch_loop (input_files : list string) (processed_count failed_count : nat)
    (a : automation) : nat * nat * automation :=
  match input_files with
  | [] => (processed_count, failed_count, a)
  | input_file :: rest =>
      if stop_requested a then (processed_count, failed_count, a)
      else
        let (ok, a') := process_single_lot input_file a in
        if ok then batch_loop rest (S processed_count) failed_count a'
        else batch_loop rest processed_count (S failed_count) a'
  end.

Definition with_health (status message : string) (a : automation) : automation :=
  {| quality_indicator := set_system_health status message (quality_indicator a);
     gui_processing := gui_processing a;
     world := world a |}.

Definition str_of_nat (n : nat) : string := NilEmpty.string_of_uint (Nat.to_uint n).

(** [failed_count] as the loop leaves it. *)
Definition recorded_failures (input_files : list string) (a : automation) : nat :=
  snd (fst (batch_loop input_files 0 0 a)).

Definition process_all_inputs (input_files : list string) (a : automation) : automation :=
  match input_files with
  | [] => a
  | _ =>
      let '(processed_count, failed_count, a') := batch_loop input_files 0 0 a in
      let total_files := length input_files in
      if Nat.eqb failed_count 0
      then with_health "GREEN" "All lots processed successfully" a'
      else if Nat.ltb failed_count total_files
      then with_health "YELLOW" (str_of_nat failed_count +:+ " lots failed processing") a'
      else with_health "RED" "All lots failed processing" a'
  end.

(** *** Parallel mode *)

(** A positional argument of a call. *)
Inductive pyarg : Type :=
  | ArgStr (s : string)
  | ArgDict (d : gmap string json).

(** Calling the bound method [self.process_single_lot], declared with the
    one parameter [input_file]: any other number of arguments raises
    [TypeError] before the body runs. Given something that is not a path,
    [load_json] fails to open it, returns [None], and the method returns
    [False]. *)
Definition call_process_single_lot (args : list pyarg) : M automation bool :=
  match args with
  | [ArgStr input_file] => fun a => let (ok, a') := process_single_lot input_file a in (Return ok, a')
  | [ArgDict _] => mret false
  | _ => lift (Raise "TypeError")
  end.

Record parallel_result := {
  status : string;
  error : option string
}.

(** One unit of work of [process_multiple_lots_parallel], for a file whose
    JSON was loaded: submitted as
    [executor.submit(self.process_single_lot, lot_id, input_data)] and
    collected with [future.result], which raises what the call raised.
    The timeout of [future.result] is not modelled. *)
Definition parallel_unit (lot_id : string) (input_data : gmap string json)
  : M automation parallel_result :=
  try_except_M
    (ok ← call_process_single_lot [ArgStr lot_id; ArgDict input_data];
     mret {| status := if (ok : bool) then "success" else "failed"; error := None |})
    (fun exc => mret {| status := "failed"; error := Some exc |}).

(** The sequential unit of work: the loop body of [process_all_inputs]. *)
Definition sequential_unit (input_file : string) : M automation bool :=
  call_process_single_lot [ArgStr input_file].

End Batch.

(** ** DuplicateDetector: start-up *)

(** [DuplicateDetector.__init__]: an empty set, then
    [load_processed_hashes] on what the hash file holds. *)
Definition detector_init (file : option (list string)) : detector :=
  snd (load_processed_hashes {| processed_hashes := ∅; hash_file := file |}).

(** The detector [mark_as_processed] leaves behind when the existence
    test on the image entry gave [present]. *)
Definition marked `{PyFloat} (env : detector_env) (r : gmap string json) (present : bool)
    (d : detector) : detector :=
  let file_hash := calculate_hash env (dict_get r "floor_plan_image") in
  let hashes :=
    {[ content_hash env r ]}
    ∪ (if present && nonempty file_hash then {[ file_hash ]} ∪ processed_hashes d
       else processed_hashes d) in
  {| processed_hashes := hashes;
     hash_file := if hash_file_writable env then Some (elements hashes) else hash_file d |}.

(** ** What a capture group can hold *)

(** Every character: the code points below 256. *)
Definition all_chars : list ascii := map ascii_of_nat (seq 0 256).

(** Every character the set matches satisfies [ok]. *)
Definition set_within (ok : ascii -> bool) (set : list Re.item) : bool :=
  forallb (fun c => implb (Re.set_matches set c) (ok c)) all_chars.

(** The pattern has its parentheses in order and not nested, and between
    them only sets of characters that satisfy [ok]. [inside] says whether
    a group is open where [p] starts. *)
Fixpoint group_within (ok : ascii -> bool) (inside : bool) (p : list Re.tok) : bool :=
  match p with
  | [] => negb inside
  | Re.TOpen :: p' => negb inside && group_within ok true p'
  | Re.TClose :: p' => inside && group_within ok false p'
  | Re.TAtom set q :: p' =>
      (if inside then set_within ok set else true) && group_within ok inside p'
  end.

(** [0-9], [,] and [.] *)
Definition number_char (c : ascii) : bool :=
  between 48 (code c) 57 || Ascii.eqb c "," || Ascii.eqb c ".".

(** [0-9] and [.] *)
Definition digit_or_point (c : ascii) : bool :=
  between 48 (code c) 57 || Ascii.eqb c ".".

(** Every pattern of the table, in order. *)
Definition all_patterns : list string := concat (map snd patterns).

(** ** InputProcessor *)

Section InputProcessor.
Context `{PyFloat}.

(** The float a literal of the source denotes. *)
Variable float_literal : string -> pyfloat.

(** [open(file_path)] and [json.load]. *)
Variable json_load : string -> result json.

(** [load_json]: [None] unless the file holds a JSON object with a
    ['lot_id']; every exception is caught. *)
Definition load_json (file_path : string) : option (gmap string json) :=
  match
    try_except
      (data ← json_load file_path;
       match data with
       | JObj d => if bool_decide (is_Some (d !! "lot_id")) then Return (Some d) else Return None
       | _ => Return None
       end)
      (fun _ => Return None)
  with
  | Return r => r
  | Raise _ => None
  end.

(** The dict [defaults] of [validate_and_fill_defaults], in source order. *)
Definition defaults : list (string * json) :=
  [ ("project_info", JObj ∅);
    ("building_data",
       JObj {[ "conditioned_floor_area" := JFloat (float_literal "2000.0");
               "windows" := JObj ∅;
               "walls" := JObj ∅;
               "infiltration" := JObj {[ "ach50" := JFloat (float_literal "7.0") ]} ]});
    ("hvac",
       JObj {[ "system1" := JObj {[ "tonnage" := JFloat (float_literal "2.5");
                                    "seer2" := JFloat (float_literal "14.0") ]} ]});
    ("duct", JObj {[ "location" := JStr "Interior" ]}) ].

Definition required_project_fields : list string :=
  ["name"; "address"; "city"; "state"; "zip"].

(** [for key, default_value in defaults.items(): if key not in data: ...],
    as a method of [data]; the result is the warnings. *)
Fixpoint fill_sections (sections : list (string * json)) : M (gmap string json) (list string) :=
  match sections with
  | [] => mret []
  | (key, default_value) :: rest =>
      data ← get_self;
      here ← (if bool_decide (is_Some ((data : gmap string json) !! key))
              then mret []
              else modify_self (insert key default_value);;
                   mret ["Missing " +:+ key +:+ " section, using defaults"]
              : M (gmap string json) (list string));
      later ← fill_sections rest;
      mret ((here : list string) ++ later)%list
  end.

(** [if key not in obj: obj[key] = value; warnings.append(warning)], as a
    method of [obj]. *)
Definition fill_default (key : string) (value : json) (warning : string)
  : M json (list string) :=
  fun obj =>
    match py_contains obj key with
    | Return true => (Return [], obj)
    | Return false =>
        match py_setitem obj key value with
        | Return obj' => (Return [warning], obj')
        | Raise exc => (Raise exc, obj)
        end
    | Raise exc => (Raise exc, obj)
    end.

(** [for field in required_project_fields: ...], as a method of
    [project_info]. *)
Fixpoint fill_project_fields (fields : list string) : M json (list string) :=
  match fields with
  | [] => mret []
  | field :: rest =>
      here ← fill_default field (JStr ("Default_" +:+ field))
                ("Missing project_info." +:+ field +:+ ", using default");
      later ← fill_project_fields rest;
      mret ((here : list string) ++ later)%list
  end.

(** Runs [m] on the object stored under [key] of [data] and keeps what it
    did to that object, also when it raises; a missing key gives the [{}]
    of [data.get(key, {})], which nothing else refers to. *)
Definition in_section {A} (key : string) (m : M json A) : M (gmap string json) A :=
  fun data =>
    match data !! key with
    | Some obj => let (r, obj') := m obj in (r, <[key := obj']> data)
    | None => (fst (m (JObj ∅)), data)
    end.

(** [data] is changed in place; the result is the warnings. *)
Definition validate_and_fill_defaults : M (gmap string json) (list string) :=
  sections ← fill_sections defaults;
  project ← in_section "project_info" (fill_project_fields required_project_fields);
  building ← in_section "building_data"
                (fill_default "conditioned_floor_area" (JFloat (float_literal "2000.0"))
                   "Missing conditioned_floor_area, using default 2000 sqft");
  mret ((sections : list string) ++ (project : list string) ++ building)%list.

End InputProcessor.

(** ** InputProcessor: reading the defaults *)

(** The first default listed for [key], if any. *)
Fixpoint default_for `{PyFloat} (sections : list (string * json)) (key : string) : option json :=
  match sections with
  | [] => None
  | (k, v) :: rest => if String.eqb k key then Some v else default_for rest key
  end.

(** ** QualityIndicator: the other setters *)

Definition set_data_quality (status message : string) (q : QualityIndicator)
  : QualityIndicator :=
  {| data_quality := py_upper status;
     system_health := system_health q;
     current_lot := current_lot q;
     status_message := if nonempty message then message else status_message q;
     processed_lots := processed_lots q |}.

Definition set_current_lot (lot_id : string) (q : QualityIndicator) : QualityIndicator :=
  {| data_quality := data_quality q;
     system_health := system_health q;
     current_lot := lot_id;
     status_message := status_message q;
     processed_lots := processed_lots q |}.

(** The timestamp of the entry is left out. *)
Definition add_processed_lot (lot_id status : string) (q : QualityIndicator)
  : QualityIndicator :=
  {| data_quality := data_quality q;
     system_health := system_health q;
     current_lot := current_lot q;
     status_message := status_message q;
     processed_lots := (processed_lots q ++ [(lot_id, status)])%list |}.

(** ** EnergyGaugeCOMInterface *)

(** [connected] and whether [project] is set; the program only tests
    [app] and [project] for truth. *)
Record com_state := {
  connected : bool;
  project : bool
}.

(** [connect]: [dispatch] is the truth value of what
    [win32com.client.Dispatch] returns, or its exception. *)
Definition connect (dispatch : result bool) : M com_state bool :=
  try_except_M
    (app ← lift dispatch;
     if (app : bool)
     then modify_self (fun c => {| connected := true; project := project c |});; mret true
     else mret false)
    (fun _ => mret false).

(** [open_template]: [template_exists] is [os.path.exists(template_path)]. *)
Definition open_template (template_exists : bool) : M com_state bool :=
  c ← get_self;
  if negb (connected c) then mret false
  else if negb template_exists then mret false
  else modify_self (fun c => {| connected := connected c; project := true |});; mret true.

Section ComSetters.
Context `{PyFloat}.

Definition is_dict (v : json) : bool :=
  match v with JObj _ => true | _ => false end.

(** [set_project_info], [set_building_data] and [calculate] do nothing
    yet: they return whether a project is loaded. *)
Definition set_project_info (c : com_state) (project_info : json) : bool := project c.
Definition set_building_data (c : com_state) (building_data : json) : bool := project c.
Definition calculate (c : com_state) : bool := project c.

(** [set_windows] and [set_hvac_system] loop over [.items()] inside their
    [try]: anything but a dict makes them return [False]. *)
Definition set_windows (c : com_state) (windows_data : json) : bool :=
  project c && is_dict windows_data.
Definition set_hvac_system (c : com_state) (hvac_data : json) : bool :=
  project c && is_dict hvac_data.

(** [set_energygauge_data]; the [.get('windows', {})] on a
    [building_data] that is no dict raises. *)
Definition set_energygauge_data (c : com_state) (input_data : gmap string json) : result bool :=
  let success1 :=
    match input_data !! "project_info" with
    | Some project_info => set_project_info c project_info
    | None => true
    end in
  success2 ←
    match input_data !! "building_data" with
    | Some building_data =>
        let ok := success1 && set_building_data c building_data in
        match building_data with
        | JObj fields =>
            let windows_data := default (JObj ∅) (fields !! "windows") in
            Return (if truthy windows_data && negb (set_windows c windows_data)
                    then false else ok)
        | _ => Raise "AttributeError"
        end
    | None => Return success1
    end;
  Return
    match input_data !! "hvac" with
    | Some hvac_data => (success2 : bool) && set_hvac_system c hvac_data
    | None => success2
    end.

End ComSetters.

(** ** EnergyGaugeAutomation: the pipeline of one record *)

Section Pipeline.
Context `{PyFloat}.

(** The outside world of the pipeline.
    - [run_other_path v]: [extract_text] on an image entry [v] that is
      not a [str].
    - [com_dispatch], [template_exists]: see [connect], [open_template].
    - [make_output_dir v]: [(self.outputs_dir / lot_id).mkdir(exist_ok=True)].
    - [display v]: [str(v)] for a [lot_id] that is not a [str]. *)
Record pipeline_env := {
  detector_world : detector_env;
  ocr_world : ocr_env;
  configuration : ConfigManager;
  json_file : string -> result json;
  items_order : gmap string json -> list string;
  literal : string -> pyfloat;
  run_other_path : json -> result ocr_result;
  com_dispatch : result bool;
  template_exists : bool;
  make_output_dir : json -> result unit;
  display : json -> string
}.

Variable env : pipeline_env.

(** The fields of the automation object the pipeline reads and writes. *)
Record lot_state := {
  indicator : QualityIndicator;
  hashes : detector;
  com : com_state
}.

Definition on_indicator (f : QualityIndicator -> QualityIndicator) : M lot_state unit :=
  modify_self (fun s => {| indicator := f (indicator s); hashes := hashes s; com := com s |}).

Definition with_detector {A} (m : M detector A) : M lot_state A :=
  fun s => let (r, d) := m (hashes s) in
           (r, {| indicator := indicator s; hashes := d; com := com s |}).

Definition with_com {A} (m : M com_state A) : M lot_state A :=
  fun s => let (r, c) := m (com s) in
           (r, {| indicator := indicator s; hashes := hashes s; com := c |}).

(** [f"{lot_id}"] *)
Definition lot_label (input_data : gmap string json) : string :=
  match dict_get input_data "lot_id" with
  | JStr s => s
  | v => display env v
  end.

(** [self.ocr_processor.extract_text(floor_plan_path)] *)
Definition run_extract_text (floor_plan_path : json) : result ocr_result :=
  match floor_plan_path with
  | JStr p => fst (extract_text (ocr_world env) (configuration env) p [])
  | v => run_other_path env v
  end.

(** A method of the record ([input_data] is changed in place) seen from
    the pipeline: the record after the call, or the exception. *)
Definition on_record {A} (m : M (gmap string json) A) (input_data : gmap string json)
  : M lot_state (A * gmap string json) :=
  lift (match m input_data with
        | (Return a, input_data') => Return (a, input_data')
        | (Raise exc, _) => Raise exc
        end).

(** From the duplicate check to the end of the OCR step: [None] for a
    duplicate, else the record as defaults and OCR left it. *)
Definition prepare (input_data : gmap string json) : M lot_state (option (gmap string json)) :=
  let lot_id := lot_label input_data in
  on_indicator (set_current_lot lot_id);;
  on_indicator (set_data_quality "GREEN" ("Processing " +:+ lot_id));;
  duplicate ← with_detector (is_duplicate (detector_world env) (configuration env) input_data);
  if (duplicate : bool)
  then
    on_indicator (set_data_quality "YELLOW" (lot_id +:+ ": Duplicate detected, skipping"));;
    mret None
  else
    validated ← on_record (validate_and_fill_defaults (literal env)) input_data;
    let warnings := fst (validated : list string * gmap string json) in
    let input_data := snd validated in
    (match warnings with
     | [] => mret tt
     | _ => on_indicator (set_data_quality "YELLOW"
                            (lot_id +:+ ": Using defaults for missing data"))
     end : M lot_state unit);;
    let floor_plan_path := dict_get input_data "floor_plan_image" in
    present ← lift (floor_plan_exists (detector_world env) floor_plan_path);
    if (present : bool)
    then
      ocr ← lift (run_extract_text floor_plan_path);
      if success (ocr : ocr_result)
      then
        enhanced ← on_record (enhance_data_with_ocr (items_order env) (text ocr))
                      input_data;
        mret (Some (snd (enhanced : unit * gmap string json)))
      else
        on_indicator (set_data_quality "YELLOW" (lot_id +:+ ": OCR failed or low confidence"));;
        mret (Some input_data)
    else mret (Some input_data).

(** From the connection to the calculation: [False] when the connection
    or the template failed. *)
Definition hand_off (lot_id : string) (input_data : gmap string json) : M lot_state bool :=
  c ← with_com get_self;
  connected_now ← (if negb (connected (c : com_state))
                   then with_com (connect (com_dispatch env))
                   else mret true : M lot_state bool);
  if negb (connected_now : bool)
  then
    on_indicator (set_system_health "RED" (lot_id +:+ ": Failed to connect to EnergyGauge"));;
    mret false
  else
    opened ← with_com (open_template (template_exists env));
    if negb (opened : bool)
    then
      on_indicator (set_system_health "RED" (lot_id +:+ ": Failed to open template"));;
      mret false
    else
      c ← with_com get_self;
      data_set ← lift (set_energygauge_data c input_data);
      (if negb (data_set : bool)
       then on_indicator (set_system_health "YELLOW" (lot_id +:+ ": Some data could not be set"))
       else mret tt : M lot_state unit);;
      (if negb (calculate c)
       then on_indicator (set_system_health "YELLOW" (lot_id +:+ ": Calculation may have failed"))
       else mret tt : M lot_state unit);;
      mret true.

(** From the output directory to the success entry. [save_project],
    [export_report] and the two archive calls are left out: their results
    are not used and they only write files that nothing here reads. *)
Definition finish (lot_id : string) (original input_data : gmap string json)
  : M lot_state bool :=
  lift (make_output_dir env (dict_get original "lot_id"));;
  with_detector (mark_as_processed (detector_world env) input_data);;
  on_indicator (add_processed_lot lot_id "SUCCESS");;
  mret true.

(** The body of the [try] of [process_single_lot], after [load_json]. *)
Definition pipeline_body (input_data : gmap string json) : M lot_state bool :=
  let lot_id := lot_label input_data in
  prepared ← prepare input_data;
  match (prepared : option (gmap string json)) with
  | None => mret true
  | Some completed =>
      handed ← hand_off lot_id completed;
      if (handed : bool) then finish lot_id input_data completed else mret false
  end.

(** The [except Exception] of [process_single_lot]; [exc] stands for
    [str(e)]. *)
Definition on_error (input_data : gmap string json) (exc : string) : M lot_state bool :=
  let lot_id := lot_label input_data in
  on_indicator (set_system_health "RED" ("Error processing " +:+ lot_id +:+ ": " +:+ exc));;
  on_indicator (add_processed_lot lot_id "FAILED");;
  mret false.

Definition process_single_lot (input_file : string) : M lot_state bool :=
  match load_json (json_file env) input_file with
  | None => mret false
  | Some input_data => try_except_M (pipeline_body input_data) (on_error input_data)
  end.

End Pipeline.

(** ** InputProcessor: the input files *)

(** [s.endswith(suffix)] *)
Definition py_endswith (s suffix : string) : bool :=
  let chars := list_ascii_of_string s in
  let tail := list_ascii_of_string suffix in
  String.eqb (string_of_list_ascii (skipn (length chars - length tail) chars)) suffix.

(** [a <= b] on [str]: code point by code point. *)
Definition str_le (a b : string) : Prop := String.leb a b = true.

#[global] Instance str_le_dec : RelDecision str_le.
Proof. intros a b. unfold str_le. apply _. Defined.

(** [sorted(files)] for a list of [str]. The order is total and
    antisymmetric, so the sorted list is the same whatever the sorting
    algorithm. *)
Definition py_sorted (files : list string) : list string := merge_sort str_le files.

Definition is_json_name (file : string) : bool := py_endswith (py_lower file) ".json".

(** [get_input_files]: [listdir] is [os.listdir], [path_join] is
    [os.path.join]. *)
Definition get_input_files (listdir : string -> result (list string))
    (path_join : string -> string -> string) (inputs_dir : string) : list string :=
  match
    try_except
      (names ← listdir inputs_dir;
       Return (py_sorted (map (path_join inputs_dir) (List.filter is_json_name names))))
      (fun _ => Return [])
  with
  | Return files => files
  | Raise _ => []
  end.

(** ** Decimal literals and sample inputs *)

(** The decimal digits of [n], without leading zeros. *)
Definition str_of_N (n : N) : string := NilZero.string_of_uint (N.to_uint n).

(** What Python's floats do on small integers: for a natural number below
    [2^53] written in decimal, [float] is exact and [str] prints the same
    digits followed by [.0]. *)
Definition float_prints_integers `{PyFloat} : Prop :=
  ∀ n : N, (n < 2 ^ 53)%N →
    ∃ x, float_of_str (str_of_N n) = Some x ∧ str_of_float x = str_of_N n +:+ ".0".

(** [s] without a final [.0], if it has one. *)
Definition without_point_zero (s : string) : option string :=
  match rev (list_ascii_of_string s) with
  | "0"%char :: "."%char :: digits => Some (string_of_list_ascii (rev digits))
  | _ => None
  end.

Definition N_of_digits (s : string) : option N :=
  option_map N.of_uint (NilZero.uint_of_string s).

(** A float model for examples, with the natural numbers as its only
    floats: [float] reads a string of digits, with or without a final
    [.0], and [str] prints [n.0]. *)
Definition digit_floats : PyFloat :=
  {| pyfloat := N;
     float_of_str := fun s =>
       match N_of_digits s with
       | Some n => Some n
       | None => without_point_zero s ≫= N_of_digits
       end;
     str_of_float := fun n => str_of_N n +:+ ".0";
     float_nonzero := fun n => negb (n =? 0)%N |}.

(** The fields [extract_field_from_text] has patterns for. *)
Definition supported_fields : list string :=
  ["conditioned_floor_area"; "tonnage"; "seer"; "u_factor"; "shgc"].

(** [d[k1][k2]...], [None] when a key is missing or a value on the way is
    not a dict. *)
Fixpoint nested_get `{PyFloat} (d : gmap string json) (keys : list string) : option json :=
  match keys with
  | [] => None
  | [key] => d !! key
  | key :: rest =>
      match d !! key with
      | Some (JObj inner) => nested_get inner rest
      | _ => None
      end
  end.

(** ** Sample inputs *)

(** The record of [create_sample_input], in the float model of the
    examples. *)
Definition sample_record : gmap string (@json digit_floats) :=
  {[ "lot_id" := JStr "Lot101_Sample";
     "building_data" := JObj {[ "conditioned_floor_area" := JFloat (2402%N : @pyfloat digit_floats) ]};
     "hvac" := JObj {[ "system1" := JObj {[ "tonnage" := JFloat (3%N : @pyfloat digit_floats);
                                            "seer2" := JFloat (15%N : @pyfloat digit_floats) ]} ]};
     "duct" := JObj {[ "location" := JStr "Interior" ]};
     "floor_plan_image" := JStr "floorplans/Lot101_plan.png" ]}.

(** A record with nothing explicit to keep: no floor area, and a tonnage
    of zero. *)
Definition sparse_record : gmap string (@json digit_floats) :=
  {[ "lot_id" := JStr "Lot102";
     "building_data" := JObj ∅;
     "hvac" := JObj {[ "system1" := JObj {[ "tonnage" := JInt 0 ]} ]} ]}.

(** A world where the floor-plan file is missing and the hash file can be
    written; the digest is a stand-in that keeps its input. *)
Definition sample_detector_env : @detector_env digit_floats :=
  {| os_path_exists := fun _ => Return false;
     read_file := fun _ => Raise "FileNotFoundError";
     md5_hexdigest := fun bytes => bytes;
     json_dumps_sorted := fun d => py_join "," (map fst (map_to_list d));
     hash_file_writable := true |}.

Definition fresh_detector : detector :=
  {| processed_hashes := ∅; hash_file := None |}.

(** An OCR world with exact arithmetic where Tesseract reports one token
    of confidence [tesseract_conf] (in percent) and the text
    [tesseract_text], and EasyOCR reports [regions]. *)
Definition sample_ocr_env (tesseract_text : string) (tesseract_conf : Z)
    (regions : list (string * Q)) : ocr_env :=
  {| tesseract_available := true;
     easyocr_available := true;
     easyocr_reader := true;
     opencv_available := false;
     image_exists := fun _ => true;
     processed_exists := fun _ => false;
     cv2_imread := fun _ => Return true;
     cv2_binarize := fun _ _ => Return tt;
     image_to_data_conf := fun _ => Return [Return tesseract_conf];
     image_to_string := fun _ => Return tesseract_text;
     os_remove := fun _ => Return tt;
     readtext := fun _ => Return regions;
     round_float := fun q => q |}.

(** Tesseract is confident about a page on which it reads only blanks. *)
Definition blank_page_env : ocr_env :=
  sample_ocr_env "   " 90 [("Floor Area: 2,402 sq ft", 95 # 100)].

Definition clear_page_env : ocr_env :=
  sample_ocr_env "Floor Area: 2,402 sq ft" 90 [("Floor Area: 2,402 sq ft", 95 # 100)].

Definition blurred_page_env : ocr_env :=
  sample_ocr_env "F1oor Aren" 30 [("Floor Area", 40 # 100)].

(** A batch of five files; the pipeline fails on the two named here. *)
Definition five_files : list string :=
  ["inputs/Lot1.json"; "inputs/Lot2.json"; "inputs/Lot3.json";
   "inputs/Lot4.json"; "inputs/Lot5.json"].

Definition sample_pipeline (input_file : string) (a : automation unit)
  : bool * automation unit :=
  (negb (String.eqb input_file "inputs/Lot2.json" || String.eqb input_file "inputs/Lot4.json"), a).

Definition fresh_automation : automation unit :=
  {| quality_indicator :=
       {| data_quality := "GREEN"; system_health := "GREEN"; current_lot := "";
          status_message := ""; processed_lots := [] |};
     gui_processing := None;
     world := tt |}.

(** A world where the floor plan exists and reads as ["PNG"]; the digest
    is a stand-in that prefixes its input and so is never empty. *)
Definition image_detector_env : @detector_env digit_floats :=
  {| os_path_exists := fun _ => Return true;
     read_file := fun _ => Return "PNG";
     md5_hexdigest := fun bytes => "md5:" +:+ bytes;
     json_dumps_sorted := fun d => py_join "," (map fst (map_to_list d));
     hash_file_writable := true |}.

(** The same world with a hash file that cannot be written. *)
Definition readonly_detector_env : @detector_env digit_floats :=
  {| os_path_exists := fun _ => Return true;
     read_file := fun _ => Return "PNG";
     md5_hexdigest := fun bytes => "md5:" +:+ bytes;
     json_dumps_sorted := fun d => py_join "," (map fst (map_to_list d));
     hash_file_writable := false |}.

(** Another lot drawn on the same floor plan. *)
Definition twin_record : gmap string (@json digit_floats) :=
  {[ "lot_id" := JStr "Lot103";
     "duct" := JObj {[ "location" := JStr "Attic" ]};
     "floor_plan_image" := JStr "floorplans/Lot101_plan.png" ]}.

(** A record that needs no default. *)
Definition complete_record : gmap string (@json digit_floats) :=
  {[ "lot_id" := JStr "Lot104";
     "project_info" := JObj {[ "name" := JStr "Lot 104"; "address" := JStr "104 Main St";
                               "city" := JStr "Orlando"; "state" := JStr "FL";
                               "zip" := JStr "32801" ]};
     "building_data" := JObj {[ "conditioned_floor_area" := JFloat (1850%N : @pyfloat digit_floats) ]};
     "hvac" := JObj {[ "system1" := JObj {[ "tonnage" := JFloat (3%N : @pyfloat digit_floats) ]} ]};
     "duct" := JObj {[ "location" := JStr "Attic" ]} ]}.

(** The literals of the source in the float model of the examples, which
    has the whole numbers only: a literal it cannot read ([2.5]) is taken
    as [0]. *)
Definition sample_literal (s : string) : @pyfloat digit_floats :=
  default 0%N (@float_of_str digit_floats s).

(** The keys of a dict in the order of [map_to_list]. *)
Definition sample_order (d : gmap string (@json digit_floats)) : list string :=
  map fst (map_to_list d).

(** Tesseract reports a confidence column with an entry that [int] cannot
    read. *)
Definition garbled_column_env : ocr_env :=
  {| tesseract_available := true;
     easyocr_available := true;
     easyocr_reader := true;
     opencv_available := false;
     image_exists := fun _ => true;
     processed_exists := fun _ => false;
     cv2_imread := fun _ => Return true;
     cv2_binarize := fun _ _ => Return tt;
     image_to_data_conf := fun _ => Return [Return 90%Z; Raise "ValueError"];
     image_to_string := fun _ => Return "Floor Area: 2,402 sq ft";
     os_remove := fun _ => Return tt;
     readtext := fun _ => Return [];
     round_float := fun q => q |}.

(** A world for the pipeline: every input file holds [file], the floor
    plan is missing, the template exists and [Dispatch] gives
    [dispatch]. *)
Definition sample_lot_env (file : @json digit_floats) (dispatch : result bool)
  : @pipeline_env digit_floats :=
  {| detector_world := sample_detector_env;
     ocr_world := clear_page_env;
     configuration := default_config;
     json_file := fun _ => Return file;
     items_order := sample_order;
     literal := sample_literal;
     run_other_path := fun _ => Raise "TypeError";
     com_dispatch := dispatch;
     template_exists := true;
     make_output_dir := fun _ => Return tt;
     display := fun _ => "None" |}.

Definition fresh_indicator : QualityIndicator :=
  {| data_quality := "GREEN"; system_health := "GREEN"; current_lot := "";
     status_message := ""; processed_lots := [] |}.

Definition fresh_lot_state : lot_state :=
  {| indicator := fresh_indicator;
     hashes := fresh_detector;
     com := {| connected := false; project := false |} |}.

(** An automation whose GUI has [processing] off and whose health is RED. *)
Definition cancelled_automation : automation unit :=
  {| quality_indicator :=
       {| data_quality := "GREEN"; system_health := "RED"; current_lot := "";
          status_message := "All lots failed processing"; processed_lots := [] |};
     gui_processing := Some false;
     world := tt |}.

(** The world where every file holds the sample record, and the one where
    every file holds the complete record; [Dispatch] succeeds. *)
Definition sample_lot_world : @pipeline_env digit_floats :=
  sample_lot_env (JObj sample_record) (Return true).

Definition complete_lot_world : @pipeline_env digit_floats :=
  sample_lot_env (JObj complete_record) (Return true).

(** A state whose detector has marked the sample record. *)
Definition marked_lot_state : lot_state :=
  {| indicator := fresh_indicator;
     hashes := snd (mark_as_processed sample_detector_env sample_record fresh_detector);
     com := {| connected := false; project := false |} |}.

(** * Properties *)

(** ** DuplicateDetector *)

Section DuplicateDetectorFacts.
Context `{PyFloat}.
Variable env : detector_env.
Variable config : ConfigManager.

Ltac run_method :=
  unfold mbind, mret, M_bind, M_ret, lift, get_self, modify_self, try_except_M; simpl.

Lemma save_keeps_hashes (d : detector) :
  ∃ d', save_processed_hashes env d = (Return tt, d')
        ∧ processed_hashes d' = processed_hashes d.
Proof.
  unfold save_processed_hashes. run_method.
  destruct (hash_file_writable env); simpl; eauto.
Qed.

Ltac after_save :=
  match goal with
  | |- context [save_processed_hashes env ?s] =>
      let s' := fresh "s'" in
      let Hset := fresh "Hset" in
      destruct (save_keeps_hashes s) as (s' & -> & Hset); simpl in *
  end.

Lemma content_hash_ignores_lot_id (r r' : gmap string json) :
  (∀ k, k ≠ "lot_id" → r' !! k = r !! k) →
  content_hash env r' = content_hash env r.
Proof.
  intros Hsame. unfold content_hash.
  replace (delete "lot_id" r') with (delete "lot_id" r); [reflexivity|].
  apply map_eq. intros k.
  destruct (decide (k = "lot_id")) as [->|Hk].
  - by rewrite !lookup_delete_eq.
  - rewrite !lookup_delete_ne by done. symmetry. by apply Hsame.
Qed.

(** What [mark_as_processed] leaves behind when it returns: the content
    fingerprint is in the set. *)
Lemma mark_as_processed_adds_content_hash (r : gmap string json) (d d' : detector) :
  mark_as_processed env r d = (Return tt, d') →
  content_hash env r ∈ processed_hashes d'.
Proof.
  unfold mark_as_processed. run_method.
  destruct (floor_plan_exists env (dict_get r "floor_plan_image")) as [present|exc];
    simpl; [|discriminate].
  set (h := calculate_hash env (dict_get r "floor_plan_image")).
  destruct present; [destruct (negb (h =? ""))%string|]; simpl;
    after_save; intros [= <-]; rewrite Hset; simpl; clear; set_solver.
Qed.

(** [mark_as_processed] returns whenever the existence test on the image
    entry does. *)
Lemma mark_as_processed_returns (r : gmap string json) (d : detector) (b : bool) :
  floor_plan_exists env (dict_get r "floor_plan_image") = Return b →
  ∃ d', mark_as_processed env r d = (Return tt, d').
Proof.
  intros Hex. unfold mark_as_processed. run_method. rewrite Hex. simpl.
  set (h := calculate_hash env (dict_get r "floor_plan_image")).
  destruct b; [destruct (negb (h =? ""))%string|]; simpl;
    after_save; eauto.
Qed.

(** C1. With duplicate detection enabled, once [mark_as_processed(r)] has
    returned, [is_duplicate(r')] returns [True] for every record [r'] that
    agrees with [r] on every key other than ['lot_id']: the fingerprint of
    the content without identifier and image path is in the set. *)
Theorem mark_then_is_duplicate (r r' : gmap string json) (d d' : detector) :
  duplicate_detection_enabled config = true →
  (∀ k, k ≠ "lot_id" → r' !! k = r !! k) →
  mark_as_processed env r d = (Return tt, d') →
  is_duplicate env config r' d' = (Return true, d').
Proof.
  intros Hon Hsame Hmark.
  pose proof (mark_as_processed_adds_content_hash _ _ _ Hmark) as Hin.
  assert (Himg : dict_get r' "floor_plan_image" = dict_get r "floor_plan_image").
  { unfold dict_get. by rewrite Hsame. }
  assert (Hex : ∃ b, floor_plan_exists env (dict_get r "floor_plan_image") = Return b).
  { revert Hmark. unfold mark_as_processed. run_method.
    destruct (floor_plan_exists env (dict_get r "floor_plan_image")); simpl; eauto.
    discriminate. }
  destruct Hex as [b Hex].
  unfold is_duplicate. rewrite Hon. run_method. rewrite Himg, Hex. simpl.
  rewrite (content_hash_ignores_lot_id r r' Hsame).
  rewrite (bool_decide_eq_true_2 _ Hin).
  by destruct (b && _).
Qed.

(** C8. The three operations of the detector leave every fingerprint that
    was in the set in the set. *)
Theorem processed_hashes_append_only (r : gmap string json) (d : detector) :
  processed_hashes d ⊆ processed_hashes (snd (is_duplicate env config r d))
  ∧ processed_hashes d ⊆ processed_hashes (snd (mark_as_processed env r d))
  ∧ processed_hashes d ⊆ processed_hashes (snd (save_processed_hashes env d)).
Proof.
  split; [|split].
  - unfold is_duplicate. destruct (negb _); run_method; [done|].
    destruct (floor_plan_exists env _) as [b|exc]; simpl; [|done].
    destruct (b && _); simpl; [done|]. by destruct (bool_decide _).
  - unfold mark_as_processed. run_method.
    destruct (floor_plan_exists env _) as [b|exc]; simpl; [|done].
    set (h := calculate_hash env (dict_get r "floor_plan_image")).
    destruct b; [destruct (negb (h =? ""))%string|]; simpl;
      after_save; rewrite Hset; simpl; clear; set_solver.
  - destruct (save_keeps_hashes d) as (d' & -> & Hset). simpl. by rewrite Hset.
Qed.

End DuplicateDetectorFacts.

(** ** OCRProcessor: adapters and multi-engine extractor *)

Section ExtractTextFacts.
Variable env : ocr_env.
Variable config : ConfigManager.

Lemma try_except_returns {A} (body : result A) (a : A) :
  ∃ v, try_except body (fun _ => Return a) = Return v.
Proof. destruct body; simpl; eauto. Qed.

Lemma try_except_raised {A} (body : result A) (a : A) (exc : string) :
  body = Raise exc → try_except body (fun _ => Return a) = Return a.
Proof. by intros ->. Qed.

Lemma tesseract_body_decode_failure (image_path exc : string) :
  image_to_data_conf env (preprocess_image env image_path) = Raise exc →
  tesseract_body env image_path = Raise exc.
Proof. intros Hdata. unfold tesseract_body. by rewrite Hdata. Qed.

Lemma easyocr_body_decode_failure (image_path exc : string) :
  readtext env image_path = Raise exc →
  easyocr_body env image_path = Raise exc.
Proof. intros Hread. unfold easyocr_body. by rewrite Hread. Qed.

(** C7. Both adapters return on every image path; they return [("", 0.0)]
    when the engine is unavailable, when the engine call on the image
    raises (the image cannot be decoded), and when anything else in the
    body raises. *)
Theorem adapters_never_raise (image_path : string) :
  (∃ v, extract_with_tesseract env image_path = Return v)
  ∧ (∃ v, extract_with_easyocr env image_path = Return v)
  ∧ (tesseract_available env = false →
     extract_with_tesseract env image_path = Return ("", 0%Q))
  ∧ (easyocr_available env = false ∨ easyocr_reader env = false →
     extract_with_easyocr env image_path = Return ("", 0%Q))
  ∧ (∀ exc, image_to_data_conf env (preprocess_image env image_path) = Raise exc →
     extract_with_tesseract env image_path = Return ("", 0%Q))
  ∧ (∀ exc, readtext env image_path = Raise exc →
     extract_with_easyocr env image_path = Return ("", 0%Q))
  ∧ (∀ exc, tesseract_body env image_path = Raise exc →
     extract_with_tesseract env image_path = Return ("", 0%Q))
  ∧ (∀ exc, easyocr_body env image_path = Raise exc →
     extract_with_easyocr env image_path = Return ("", 0%Q)).
Proof.
  unfold extract_with_tesseract, extract_with_easyocr.
  repeat split.
  - destruct (negb _); eauto using try_except_returns.
  - destruct (_ || _); eauto using try_except_returns.
  - by intros ->.
  - by intros [-> | ->]; simpl; rewrite ?orb_true_r.
  - intros exc Hdata. destruct (negb _); [done|].
    eapply try_except_raised, tesseract_body_decode_failure, Hdata.
  - intros exc Hread. destruct (_ || _); [done|].
    eapply try_except_raised, easyocr_body_decode_failure, Hread.
  - intros exc Hbody. destruct (negb _); [done|]. by rewrite Hbody.
  - intros exc Hbody. destruct (_ || _); [done|]. by rewrite Hbody.
Qed.

Ltac run_extract :=
  unfold extract_text, consult, float_ge, mbind, mret, M_bind, M_ret, lift, modify_self;
  simpl.

Lemma nonempty_true (s : string) : s ≠ "" → nonempty s = true.
Proof.
  intros Hs. unfold nonempty. destruct (String.eqb_spec s ""); [done|reflexivity].
Qed.

Lemma float_ge_false (x y : Q) : (x < y)%Q → Qle_bool y x = false.
Proof.
  intros Hlt. destruct (Qle_bool y x) eqn:Hle; [|reflexivity].
  apply Qle_bool_iff in Hle. exfalso. by apply (Qlt_not_le x y).
Qed.

(** C2, as the code has it. When the image file exists, Tesseract's
    confidence is at least the threshold and its text is not empty,
    [extract_text] returns Tesseract's text and confidence with method
    ['tesseract'] and [success=True], and EasyOCR is not run. *)
Theorem extract_text_accepts_tesseract
    (image_path : string) (log : list string) (tesseract_text : string) (a : Q) :
  image_exists env image_path = true →
  extract_with_tesseract env image_path = Return (tesseract_text, a) →
  (ocr_confidence_threshold config <= a)%Q →
  tesseract_text ≠ "" →
  extract_text env config image_path log
  = (Return {| text := tesseract_text; confidence := a;
               method := "tesseract"; success := true |},
     (log ++ ["tesseract"])%list).
Proof.
  intros Hexists Htess Hge Htext. run_extract.
  rewrite Hexists, Htess. simpl.
  apply Qle_bool_iff in Hge. rewrite Hge, (nonempty_true _ Htext). reflexivity.
Qed.

(** C3. When the image file exists and both confidences are below the
    threshold, [extract_text] runs both engines and returns with
    [success=False] the result of the engine with the higher confidence,
    Tesseract's when the two are equal. *)
Theorem extract_text_best_effort
    (image_path : string) (log : list string) (ta tb : string) (a b : Q) :
  image_exists env image_path = true →
  extract_with_tesseract env image_path = Return (ta, a) →
  extract_with_easyocr env image_path = Return (tb, b) →
  (a < ocr_confidence_threshold config)%Q →
  (b < ocr_confidence_threshold config)%Q →
  ∃ r, extract_text env config image_path log
       = (Return r, (log ++ ["tesseract"; "easyocr"])%list)
    ∧ success r = false
    ∧ ((b < a)%Q → r = {| text := ta; confidence := a; method := "tesseract"; success := false |})
    ∧ ((a == b)%Q → r = {| text := ta; confidence := a; method := "tesseract"; success := false |})
    ∧ ((a < b)%Q → r = {| text := tb; confidence := b; method := "easyocr"; success := false |}).
Proof.
  intros Hexists Htess Heasy Ha Hb. run_extract.
  rewrite Hexists, Htess. simpl. rewrite (float_ge_false _ _ Ha). simpl.
  rewrite Heasy. simpl. rewrite (float_ge_false _ _ Hb). simpl.
  rewrite <- app_assoc. simpl.
  destruct (Qle_bool b a) eqn:Hba; simpl.
  - rewrite (float_ge_false _ _ Ha). eexists. repeat split; try reflexivity.
    intros Hlt. apply Qle_bool_iff in Hba. exfalso. by apply (Qlt_not_le a b).
  - rewrite (float_ge_false _ _ Hb). eexists. repeat split; try reflexivity.
    + intros Hlt. apply Qlt_le_weak, Qle_bool_iff in Hlt. congruence.
    + intros Heq. assert (Hle : (b <= a)%Q) by (rewrite Heq; apply Qle_refl).
      apply Qle_bool_iff in Hle. congruence.
Qed.

End ExtractTextFacts.

(** ** OCRProcessor: the field extractor *)

Lemma digit_floats_print_integers : @float_prints_integers digit_floats.
Proof.
  intros n _. exists n. split; [|reflexivity].
  simpl. unfold N_of_digits, str_of_N. rewrite NilZero.usu.
  - simpl. by rewrite DecimalN.Unsigned.of_to.
  - destruct n as [|p]; [discriminate|]. apply DecimalPos.Unsigned.to_uint_nonnil.
Qed.

Section FieldExtractorFacts.
Context `{PyFloat}.

Lemma first_parsed_none (field_patterns : list string) (text : string) :
  (∀ pattern, pattern ∈ field_patterns → no_parsed_match pattern text) →
  first_parsed field_patterns text = None.
Proof.
  induction field_patterns as [|pattern rest IH]; intros Hnone; [reflexivity|].
  simpl. pose proof (Hnone pattern (list_elem_of_here _ _)) as Hp.
  unfold no_parsed_match in Hp.
  assert (Hrest : first_parsed rest text = None).
  { apply IH. intros q Hq. apply Hnone. by apply list_elem_of_further. }
  destruct (Re.search pattern text) as [group1|]; [|exact Hrest].
  by rewrite Hp.
Qed.

Lemma patterns_get_unknown (key : string) :
  key ∉ supported_fields → patterns_get patterns key = [].
Proof.
  intros Hkey. unfold patterns. cbn [patterns_get].
  repeat match goal with
  | |- context [String.eqb ?k key] =>
      destruct (String.eqb_spec k key) as [<-|_];
        [exfalso; apply Hkey; unfold supported_fields; set_solver|]
  end.
  reflexivity.
Qed.

(** C4. On the text ["Floor Area: 2,402 sq ft"] the field
    ['conditioned_floor_area'] is ["2402.0"]: the first pattern matches,
    its group is ["2,402"], the comma goes and the float prints as
    ["2402.0"]. On a text where no pattern of the field has a match whose
    group is a float, the result is [None]. *)
Theorem extract_field_from_text_examples :
  float_prints_integers →
  extract_field_from_text "Floor Area: 2,402 sq ft" "conditioned_floor_area"
    = Some "2402.0"
  ∧ ∀ text field_name : string,
      (∀ pattern, pattern ∈ patterns_get patterns (py_lower field_name) →
                  no_parsed_match pattern (py_lower text)) →
      extract_field_from_text text field_name = None.
Proof.
  intros Hfloat. split.
  - destruct (Hfloat 2402%N) as (x & Hparse & Hstr); [reflexivity|].
    change (str_of_N 2402) with "2402" in Hparse, Hstr.
    unfold extract_field_from_text.
    change (patterns_get patterns (py_lower "conditioned_floor_area"))
      with [ "floor\s*area[:\s]*([0-9,]+\.?[0-9]*)";
             "area[:\s]*([0-9,]+\.?[0-9]*)\s*sq\s*ft";
             "([0-9,]+\.?[0-9]*)\s*sq\s*ft" ].
    change (py_lower "Floor Area: 2,402 sq ft") with "floor area: 2,402 sq ft".
    unfold first_parsed.
    replace (Re.search "floor\s*area[:\s]*([0-9,]+\.?[0-9]*)" "floor area: 2,402 sq ft")
      with (Some "2,402") by (vm_compute; reflexivity).
    change (py_replace "," "" "2,402") with "2402".
    by rewrite Hparse, Hstr.
  - intros text field_name Hnone. unfold extract_field_from_text.
    by apply first_parsed_none.
Qed.

(** C10. A field name whose lower-cased form is none of the five
    supported fields gives [None] on every text. *)
Theorem extract_field_from_text_unknown_field (text field_name : string) :
  py_lower field_name ∉ supported_fields →
  extract_field_from_text text field_name = None.
Proof.
  intros Hkey. unfold extract_field_from_text.
  by rewrite (patterns_get_unknown _ Hkey).
Qed.

End FieldExtractorFacts.

(** ** OCR enrichment *)

Section EnhanceFacts.
Context `{PyFloat}.
Variable dict_order : gmap string json -> list string.

Ltac run_method :=
  unfold mbind, mret, M_bind, M_ret, result_bind, lift, get_self, modify_self; simpl.

(** A field that is present and truthy is left alone, and so is the
    dict that holds it. *)
Lemma fill_field_keeps_truthy (key ocr_text : string) (m : gmap string json) (v : json) :
  m !! key = Some v → truthy v = true →
  fill_field key ocr_text (JObj m) = Return (JObj m).
Proof.
  intros Hkey Hv. unfold fill_field, missing_or_falsy, py_contains, py_getitem.
  run_method. rewrite Hkey. simpl. by rewrite Hv.
Qed.

(** Whatever it does, [fill_field] on a dict writes no key but [key]. *)
Lemma fill_field_frame (key ocr_text : string) (m : gmap string json) (obj' : json) :
  fill_field key ocr_text (JObj m) = Return obj' →
  ∃ m', obj' = JObj m' ∧ ∀ k, k ≠ key → m' !! k = m !! k.
Proof.
  unfold fill_field, missing_or_falsy, py_contains, py_getitem, py_setitem.
  run_method.
  destruct (m !! key) as [v|] eqn:Hkey; simpl.
  - destruct (truthy v); simpl.
    + intros [= <-]. eauto.
    + destruct (extract_field_from_text ocr_text key) as [value|]; [|intros [= <-]; eauto].
      destruct (nonempty value); [|intros [= <-]; eauto].
      destruct (float_of_str value); [|discriminate].
      intros [= <-]. eexists. split; [reflexivity|].
      intros k Hk. by rewrite lookup_insert_ne.
  - destruct (extract_field_from_text ocr_text key) as [value|]; [|intros [= <-]; eauto].
    destruct (nonempty value); [|intros [= <-]; eauto].
    destruct (float_of_str value); [|discriminate].
    intros [= <-]. eexists. split; [reflexivity|].
    intros k Hk. by rewrite lookup_insert_ne.
Qed.

Lemma on_section_other (key k : string) (m : json -> result unit * json)
    (input_data : gmap string json) :
  k ≠ key → snd (on_section key m input_data) !! k = input_data !! k.
Proof.
  intros Hk. unfold on_section.
  destruct (input_data !! key) as [obj|]; [|reflexivity].
  destruct (m obj) as [r obj']. simpl. by rewrite lookup_insert_ne.
Qed.

Lemma on_section_same (key : string) (m : json -> result unit * json)
    (input_data : gmap string json) (obj : json) :
  input_data !! key = Some obj →
  snd (on_section key m input_data) !! key = Some (snd (m obj)).
Proof.
  intros Hkey. unfold on_section. rewrite Hkey.
  destruct (m obj) as [r obj']. simpl. by rewrite lookup_insert_eq.
Qed.

Lemma enhance_building_keeps (ocr_text : string) (building_data : gmap string json) (v : json) :
  building_data !! "conditioned_floor_area" = Some v → truthy v = true →
  snd (enhance_building ocr_text (JObj building_data)) = JObj building_data.
Proof.
  intros Hkey Hv. unfold enhance_building.
  by rewrite (fill_field_keeps_truthy _ _ _ _ Hkey Hv).
Qed.

(** The loop over the systems leaves a system with a truthy tonnage as it
    was, in whatever order the systems come. *)
Lemma enhance_systems_keeps (ocr_text : string) (system_ids : list string) :
  ∀ (hvac_data : gmap string json) (system_id : string)
    (system_data : gmap string json) (v : json),
    hvac_data !! system_id = Some (JObj system_data) →
    system_data !! "tonnage" = Some v → truthy v = true →
    snd (enhance_systems ocr_text system_ids hvac_data) !! system_id
      = Some (JObj system_data).
Proof.
  induction system_ids as [|id rest IH]; intros hvac_data system_id system_data v Hsys Hton Hv.
  - exact Hsys.
  - simpl. run_method.
    destruct (hvac_data !! id) as [sd|] eqn:Hid; [|by eapply IH].
    destruct (fill_field "tonnage" ocr_text sd) as [sd'|exc] eqn:Hfill; simpl; [|exact Hsys].
    eapply IH; [|exact Hton|exact Hv].
    destruct (decide (id = system_id)) as [->|Hne].
    + rewrite Hsys in Hid. injection Hid as <-.
      rewrite (fill_field_keeps_truthy _ _ _ _ Hton Hv) in Hfill.
      injection Hfill as <-. by rewrite lookup_insert_eq.
    + by rewrite lookup_insert_ne.
Qed.

(** C6. After [enhance_data_with_ocr], whether it returned or raised, a
    [conditioned_floor_area] of [building_data] and a [tonnage] of an HVAC
    system that were present and truthy before the call hold the value
    they held. *)
Theorem enhance_keeps_explicit_values (ocr_text : string) (input_data : gmap string json) :
  let after := snd (enhance_data_with_ocr dict_order ocr_text input_data) in
  (∀ (building_data : gmap string json) (v : json),
      input_data !! "building_data" = Some (JObj building_data) →
      building_data !! "conditioned_floor_area" = Some v →
      truthy v = true →
      ∃ building_data' : gmap string json,
        after !! "building_data" = Some (JObj building_data')
        ∧ building_data' !! "conditioned_floor_area" = Some v)
  ∧ (∀ (hvac_data : gmap string json) (system_id : string)
       (system_data : gmap string json) (v : json),
      input_data !! "hvac" = Some (JObj hvac_data) →
      hvac_data !! system_id = Some (JObj system_data) →
      system_data !! "tonnage" = Some v →
      truthy v = true →
      ∃ hvac_data' system_data' : gmap string json,
        after !! "hvac" = Some (JObj hvac_data')
        ∧ hvac_data' !! system_id = Some (JObj system_data')
        ∧ system_data' !! "tonnage" = Some v).
Proof.
  cbv zeta. unfold enhance_data_with_ocr. run_method.
  set (b := enhance_building ocr_text).
  set (h := enhance_hvac dict_order ocr_text).
  split.
  - intros building_data v Hbd Hcfa Hv. exists building_data. split; [|exact Hcfa].
    assert (Hstep : snd (on_section "building_data" b input_data) !! "building_data"
                    = Some (JObj building_data)).
    { rewrite (on_section_same _ _ _ _ Hbd). subst b.
      by rewrite (enhance_building_keeps _ _ _ Hcfa Hv). }
    destruct (on_section "building_data" b input_data) as [[[]|exc] r1]; simpl in *;
      [|exact Hstep].
    by rewrite on_section_other.
  - intros hvac_data system_id system_data v Hhvac Hsys Hton Hv.
    assert (Hstep : snd (on_section "building_data" b input_data) !! "hvac"
                    = Some (JObj hvac_data)).
    { by rewrite on_section_other. }
    destruct (on_section "building_data" b input_data) as [[[]|exc] r1]; simpl in *.
    + rewrite (on_section_same _ _ _ _ Hstep). subst h. unfold enhance_hvac.
      pose proof (enhance_systems_keeps ocr_text (dict_order hvac_data)
                    hvac_data system_id system_data v Hsys Hton Hv) as Hkeep.
      destruct (enhance_systems ocr_text (dict_order hvac_data) hvac_data) as [r systems'].
      simpl in *. eauto.
    + eauto.
Qed.

End EnhanceFacts.

(** ** Batch drivers *)

Section BatchFacts.
Context `{PyFloat}.
Variable W : Type.
Variable process_single_lot : string -> automation W -> bool * automation W.

Lemma batch_loop_counts (input_files : list string) :
  ∀ (processed_count failed_count : nat) (a : automation W),
    let '(p, f, _) := batch_loop W process_single_lot input_files processed_count failed_count a in
    (p + f ≤ processed_count + failed_count + length input_files
     ∧ processed_count ≤ p ∧ failed_count ≤ f)%nat.
Proof.
  induction input_files as [|input_file rest IH]; intros p0 f0 a; simpl.
  - lia.
  - destruct (stop_requested W a); [lia|].
    destruct (process_single_lot input_file a) as [[] a'].
    + specialize (IH (S p0) f0 a'). destruct (batch_loop _ _ _ _ _ _) as [[p f] a2]. lia.
    + specialize (IH p0 (S f0) a'). destruct (batch_loop _ _ _ _ _ _) as [[p f] a2]. lia.
Qed.

(** The loop never records more failures than there are files. *)
Lemma recorded_failures_bound (input_files : list string) (a : automation W) :
  (recorded_failures W process_single_lot input_files a ≤ length input_files)%nat.
Proof.
  unfold recorded_failures.
  pose proof (batch_loop_counts input_files 0 0 a) as Hc.
  destruct (batch_loop _ _ _ _ _ _) as [[p f] a2]. simpl. lia.
Qed.

(** C5. After [process_all_inputs] on [n >= 1] files with [f] recorded
    failures, [system_health] is GREEN when [f = 0], YELLOW when
    [0 < f < n] and RED when [f = n]. *)
Theorem process_all_inputs_health (input_files : list string) (a : automation W) :
  input_files ≠ [] →
  let f := recorded_failures W process_single_lot input_files a in
  let n := length input_files in
  let health :=
    system_health (quality_indicator W (process_all_inputs W process_single_lot input_files a)) in
  (f = 0%nat → health = "GREEN")
  ∧ ((0 < f < n)%nat → health = "YELLOW")
  ∧ (f = n → health = "RED").
Proof.
  intros Hfiles. cbv zeta. unfold process_all_inputs, recorded_failures.
  destruct input_files as [|input_file rest]; [done|].
  assert (Hn : (0 < length (input_file :: rest))%nat) by (simpl; lia).
  remember (input_file :: rest) as files eqn:Hfl.
  destruct (batch_loop W process_single_lot files 0 0 a) as [[p f] a'] eqn:Hloop.
  simpl fst; simpl snd.
  destruct (Nat.eqb_spec f 0) as [Hf|Hf]; [|destruct (Nat.ltb_spec f (length files)) as [Hlt|Hge]];
    simpl; repeat split; intros; first [reflexivity | lia].
Qed.

(** C9, what the code does. A unit of work of the parallel driver passes
    [lot_id] and [input_data] to [process_single_lot], which takes one
    [input_file]: the call raises [TypeError], the record is reported
    failed, and no step of the pipeline has run. *)
Theorem parallel_unit_fails
    (lot_id : string) (input_data : gmap string json) (a : automation W) :
  parallel_unit W process_single_lot lot_id input_data a
  = (Return {| status := "failed"; error := Some "TypeError" |}, a).
Proof. reflexivity. Qed.

(** The sequential unit of work runs the pipeline. *)
Lemma sequential_unit_runs (input_file : string) (a : automation W) :
  sequential_unit W process_single_lot input_file a
  = (Return (fst (process_single_lot input_file a)), snd (process_single_lot input_file a)).
Proof.
  unfold sequential_unit, call_process_single_lot.
  by destruct (process_single_lot input_file a).
Qed.

End BatchFacts.

(** ** The properties on the sample inputs *)

(** The sample record under another identifier is a duplicate once the
    sample record has been marked. *)
Lemma relabelled_sample_is_duplicate :
  is_duplicate sample_detector_env default_config
    (<["lot_id" := JStr "Lot999"]> sample_record)
    (snd (mark_as_processed sample_detector_env sample_record fresh_detector))
  = (Return true, snd (mark_as_processed sample_detector_env sample_record fresh_detector)).
Proof.
  apply (mark_then_is_duplicate sample_detector_env default_config
           sample_record (<["lot_id" := JStr "Lot999"]> sample_record) fresh_detector).
  - reflexivity.
  - intros k Hk. by rewrite lookup_insert_ne.
  - vm_compute. reflexivity.
Defined.

(** A confident Tesseract with a non-empty text is taken; EasyOCR is not
    run. *)
Lemma clear_page_is_read_by_tesseract :
  extract_text clear_page_env default_config "plan.png" []
  = (Return {| text := "Floor Area: 2,402 sq ft"; confidence := 90 # 100;
               method := "tesseract"; success := true |},
     ["tesseract"]).
Proof.
  apply (extract_text_accepts_tesseract clear_page_env default_config "plan.png" []
           "Floor Area: 2,402 sq ft" (90 # 100)).
  - reflexivity.
  - reflexivity.
  - vm_compute. discriminate.
  - discriminate.
Defined.

(** C2 fails as stated: Tesseract's confidence 0.9 is above the threshold
    0.6 but its text is empty, so EasyOCR is run and its result is the one
    returned. *)
Lemma blank_page_falls_through_to_easyocr :
  extract_with_tesseract blank_page_env "plan.png" = Return ("", 90 # 100)
  ∧ (ocr_confidence_threshold default_config <= 90 # 100)%Q
  ∧ extract_text blank_page_env default_config "plan.png" []
    = (Return {| text := "Floor Area: 2,402 sq ft"; confidence := 95 # 100;
                 method := "easyocr"; success := true |},
       ["tesseract"; "easyocr"]).
Proof.
  split; [reflexivity|]. split; [|reflexivity].
  vm_compute. discriminate.
Qed.

(** Two engines below the threshold: the better one is returned, not
    accepted. *)
Lemma blurred_page_is_best_effort :
  ∃ r, extract_text blurred_page_env default_config "plan.png" []
       = (Return r, ["tesseract"; "easyocr"])
    ∧ success r = false
    ∧ ((40 # 100 < 30 # 100)%Q →
       r = {| text := "F1oor Aren"; confidence := 30 # 100; method := "tesseract"; success := false |})
    ∧ ((30 # 100 == 40 # 100)%Q →
       r = {| text := "F1oor Aren"; confidence := 30 # 100; method := "tesseract"; success := false |})
    ∧ ((30 # 100 < 40 # 100)%Q →
       r = {| text := "Floor Area"; confidence := 40 # 100; method := "easyocr"; success := false |}).
Proof.
  apply (extract_text_best_effort blurred_page_env default_config "plan.png" []
           "F1oor Aren" "Floor Area" (30 # 100) (40 # 100)).
  - reflexivity.
  - reflexivity.
  - reflexivity.
  - reflexivity.
  - reflexivity.
Defined.

(** The field extractor in the float model of the examples. *)
Lemma floor_area_in_digit_floats :
  @extract_field_from_text digit_floats "Floor Area: 2,402 sq ft" "conditioned_floor_area"
    = Some "2402.0"
  ∧ ∀ text field_name : string,
      (∀ pattern, pattern ∈ patterns_get patterns (py_lower field_name) →
                  @no_parsed_match digit_floats pattern (py_lower text)) →
      @extract_field_from_text digit_floats text field_name = None.
Proof.
  exact (@extract_field_from_text_examples digit_floats digit_floats_print_integers).
Defined.

(** The first floor-area pattern on the lower-cased sample text: the
    group is the number with its comma. *)
Example floor_area_group :
  Re.search "floor\s*area[:\s]*([0-9,]+\.?[0-9]*)" (py_lower "Floor Area: 2,402 sq ft")
    = Some "2,402"
  ∧ py_replace "," "" "2,402" = "2402".
Proof. split; reflexivity. Qed.

(** A group of commas only is not a number: the next pattern is tried. *)
Example commas_are_skipped :
  Re.search "floor\s*area[:\s]*([0-9,]+\.?[0-9]*)" "floor area ,, 1500 sq ft" = Some ",,"
  ∧ @extract_field_from_text digit_floats "Floor Area ,, 1500 sq ft" "conditioned_floor_area"
    = Some "1500.0".
Proof. split; reflexivity. Qed.

(** There are no patterns for an R-value. *)
Lemma r_value_is_not_extracted :
  @extract_field_from_text digit_floats "R-Value: 19" "R_Value" = None.
Proof.
  apply (@extract_field_from_text_unknown_field digit_floats "R-Value: 19" "R_Value").
  change (py_lower "R_Value") with "r_value". unfold supported_fields.
  intros Hin. repeat (apply elem_of_cons in Hin as [Hin|Hin]; [discriminate|]).
  by apply elem_of_nil in Hin.
Defined.

(** A batch of five with two failures ends YELLOW. *)
Lemma five_files_two_failures :
  system_health (quality_indicator unit
    (process_all_inputs unit sample_pipeline five_files fresh_automation)) = "YELLOW".
Proof.
  destruct (process_all_inputs_health unit sample_pipeline five_files fresh_automation)
    as (Hgreen & Hyellow & Hred).
  - discriminate.
  - apply Hyellow. vm_compute. lia.
Defined.

(** A batch of five with no failure ends GREEN, one with five failures
    ends RED. *)
Example five_files_no_failure :
  system_health (quality_indicator unit
    (process_all_inputs unit (fun _ a => (true, a)) five_files fresh_automation)) = "GREEN".
Proof. reflexivity. Qed.

Example five_files_five_failures :
  system_health (quality_indicator unit
    (process_all_inputs unit (fun _ a => (false, a)) five_files fresh_automation)) = "RED".
Proof. reflexivity. Qed.

(** In parallel mode a file the pipeline accepts is reported failed. *)
Example parallel_fails_where_sequential_succeeds :
  @sequential_unit digit_floats unit sample_pipeline "inputs/Lot1.json" fresh_automation
    = (Return true, fresh_automation)
  ∧ @parallel_unit digit_floats unit sample_pipeline "Lot1" sample_record fresh_automation
    = (Return {| status := "failed"; error := Some "TypeError" |}, fresh_automation).
Proof. split; reflexivity. Qed.

(** Enrichment fills the missing floor area and the zero tonnage of the
    sparse record, and changes nothing in the sample record. *)
Example sparse_record_is_filled :
  let after := snd (enhance_data_with_ocr (fun d => map fst (map_to_list d))
                      "Floor Area: 1,850 sq ft, 3 ton" sparse_record) in
  nested_get after ["building_data"; "conditioned_floor_area"]
    = Some (JFloat (1850%N : @pyfloat digit_floats))
  ∧ nested_get after ["hvac"; "system1"; "tonnage"]
    = Some (JFloat (3%N : @pyfloat digit_floats)).
Proof. split; reflexivity. Qed.

Example sample_record_is_kept :
  let after := snd (enhance_data_with_ocr (fun d => map fst (map_to_list d))
                      "Floor Area: 1,850 sq ft, 3 ton" sample_record) in
  nested_get after ["building_data"; "conditioned_floor_area"]
    = Some (JFloat (2402%N : @pyfloat digit_floats))
  ∧ nested_get after ["hvac"; "system1"; "tonnage"]
    = Some (JFloat (3%N : @pyfloat digit_floats)).
Proof. split; reflexivity. Qed.

(** * Further properties *)

#[local] Set Warnings "-clear-no-such-hyp".

(** ** DuplicateDetector: persistence and fingerprints *)

Section DetectorPersistence.
Context `{PyFloat}.
Variable env : detector_env.
Variable config : ConfigManager.

Ltac run_method :=
  unfold mbind, mret, M_bind, M_ret, lift, get_self, modify_self, try_except_M; simpl.

Lemma mark_as_processed_result (r : gmap string json) (d : detector) :
  mark_as_processed env r d
  = match floor_plan_exists env (dict_get r "floor_plan_image") with
    | Return present => (Return tt, marked env r present d)
    | Raise exc => (Raise exc, d)
    end.
Proof.
  unfold mark_as_processed, save_processed_hashes, marked, nonempty. run_method.
  destruct (floor_plan_exists env (dict_get r "floor_plan_image")) as [present|exc]; simpl; [|reflexivity].
  destruct present; simpl;
    [destruct (negb (calculate_hash env (dict_get r "floor_plan_image") =? ""))%string; simpl|];
    destruct (hash_file_writable env); reflexivity.
Qed.

Lemma mark_returned (r : gmap string json) (d d' : detector) :
  mark_as_processed env r d = (Return tt, d') →
  ∃ present, floor_plan_exists env (dict_get r "floor_plan_image") = Return present ∧ d' = marked env r present d.
Proof.
  rewrite mark_as_processed_result.
  destruct (floor_plan_exists env (dict_get r "floor_plan_image")) as [present|exc]; [|discriminate].
  intros [= <-]. eauto.
Qed.

Lemma is_duplicate_content_hit (r : gmap string json) (d : detector) (present : bool) :
  duplicate_detection_enabled config = true →
  floor_plan_exists env (dict_get r "floor_plan_image") = Return present →
  content_hash env r ∈ processed_hashes d →
  is_duplicate env config r d = (Return true, d).
Proof.
  intros Hon Hex Hin. unfold is_duplicate. rewrite Hon. run_method. rewrite Hex. simpl.
  rewrite (bool_decide_eq_true_2 _ Hin). by destruct (present && _).
Qed.

Lemma is_duplicate_image_hit (r : gmap string json) (d : detector) :
  duplicate_detection_enabled config = true →
  floor_plan_exists env (dict_get r "floor_plan_image") = Return true →
  calculate_hash env (dict_get r "floor_plan_image") ∈ processed_hashes d →
  is_duplicate env config r d = (Return true, d).
Proof.
  intros Hon Hex Hin. unfold is_duplicate. rewrite Hon. run_method. rewrite Hex. simpl.
  by rewrite (bool_decide_eq_true_2 _ Hin).
Qed.

Lemma detector_init_hashes (hashes : list string) :
  processed_hashes (detector_init (Some hashes)) = list_to_set hashes.
Proof. reflexivity. Qed.

(** X1. A fingerprint outlives the run: when the hash file can be
    written and [mark_as_processed(r)] has returned, a detector started
    afresh from the file it left reports as duplicate every record that
    agrees with [r] outside ['lot_id']. *)
Theorem marked_record_is_duplicate_after_restart
    (r r' : gmap string json) (d d' : detector) :
  hash_file_writable env = true →
  duplicate_detection_enabled config = true →
  (∀ k, k ≠ "lot_id" → r' !! k = r !! k) →
  mark_as_processed env r d = (Return tt, d') →
  is_duplicate env config r' (detector_init (hash_file d'))
  = (Return true, detector_init (hash_file d')).
Proof.
  intros Hw Hon Hsame Hmark.
  destruct (mark_returned _ _ _ Hmark) as (present & Hex & ->).
  assert (Himg : dict_get r' "floor_plan_image" = dict_get r "floor_plan_image") by (unfold dict_get; by rewrite Hsame).
  apply (is_duplicate_content_hit r' _ present); [done|by rewrite Himg|].
  rewrite (content_hash_ignores_lot_id env r r' Hsame).
  unfold marked. simpl. rewrite Hw, detector_init_hashes.
  rewrite list_to_set_elements_L. set_solver.
Qed.

(** X2. A write failure is not fatal and costs only persistence: when the
    hash file cannot be written, [mark_as_processed] still returns with
    the content fingerprint in the in-memory set, the file is as it was,
    and a detector started from it knows what it knew before. *)
Theorem mark_without_writable_file (r : gmap string json) (d : detector) (present : bool) :
  hash_file_writable env = false →
  floor_plan_exists env (dict_get r "floor_plan_image") = Return present →
  ∃ d', mark_as_processed env r d = (Return tt, d')
    ∧ content_hash env r ∈ processed_hashes d'
    ∧ hash_file d' = hash_file d
    ∧ detector_init (hash_file d') = detector_init (hash_file d).
Proof.
  intros Hw Hex. rewrite mark_as_processed_result, Hex.
  eexists. split; [reflexivity|]. unfold marked. simpl. rewrite Hw.
  repeat split. set_solver.
Qed.

(** X3. Marking is idempotent: marking the same record again changes
    neither the set nor the file. *)
Theorem mark_as_processed_idempotent (r : gmap string json) (d d' : detector) :
  mark_as_processed env r d = (Return tt, d') →
  mark_as_processed env r d' = (Return tt, d').
Proof.
  intros Hmark. destruct (mark_returned _ _ _ Hmark) as (present & Hex & ->).
  rewrite mark_as_processed_result, Hex. f_equal.
  unfold marked. simpl.
  set (c := content_hash env r).
  set (h := calculate_hash env (dict_get r "floor_plan_image")).
  set (hs := processed_hashes d).
  assert (Hsame : ∀ s : gset string,
            s = {[ c ]} ∪ (if present && nonempty h then {[ h ]} ∪ hs else hs) →
            {[ c ]} ∪ (if present && nonempty h then {[ h ]} ∪ s else s) = s).
  { intros s ->. destruct (present && nonempty h); set_solver. }
  rewrite (Hsame _ eq_refl).
  by destruct (hash_file_writable env).
Qed.

(** X4. The image fingerprint alone makes a duplicate: after
    [mark_as_processed(r)] with a readable floor plan, a record [r'] with
    any content whose floor plan exists and has the same digest is a
    duplicate. *)
Theorem same_image_is_duplicate (r r' : gmap string json) (d d' : detector) :
  duplicate_detection_enabled config = true →
  floor_plan_exists env (dict_get r "floor_plan_image") = Return true →
  floor_plan_exists env (dict_get r' "floor_plan_image") = Return true →
  calculate_hash env (dict_get r' "floor_plan_image") = calculate_hash env (dict_get r "floor_plan_image") →
  calculate_hash env (dict_get r "floor_plan_image") ≠ "" →
  mark_as_processed env r d = (Return tt, d') →
  is_duplicate env config r' d' = (Return true, d').
Proof.
  intros Hon Hex Hex' Hhash Hne Hmark.
  destruct (mark_returned _ _ _ Hmark) as (present & Hex2 & ->).
  rewrite Hex in Hex2. injection Hex2 as <-.
  apply is_duplicate_image_hit; [done|done|].
  rewrite Hhash. unfold marked. simpl.
  rewrite (nonempty_true _ Hne). set_solver.
Qed.

(** X5. The empty digest that [calculate_hash] returns for an unreadable
    file never enters the set: with a digest function that is never
    empty, a set without [""] is still without it after
    [mark_as_processed]. *)
Theorem empty_hash_is_never_marked (r : gmap string json) (d d' : detector) :
  (∀ bytes, md5_hexdigest env bytes ≠ "") →
  "" ∉ processed_hashes d →
  mark_as_processed env r d = (Return tt, d') →
  "" ∉ processed_hashes d'.
Proof.
  intros Hmd5 Hd Hmark.
  destruct (mark_returned _ _ _ Hmark) as (present & Hex & ->).
  unfold marked. simpl.
  assert (Hc : content_hash env r ≠ "") by apply Hmd5.
  destruct present; simpl; [|set_solver].
  unfold nonempty. destruct (String.eqb_spec (calculate_hash env (dict_get r "floor_plan_image")) "");
    simpl; set_solver.
Qed.

End DetectorPersistence.

(** ** OCRProcessor: what [extract_text] returns *)

Section ExtractTextShape.
Variable env : ocr_env.
Variable config : ConfigManager.

Ltac run_extract :=
  unfold extract_text, consult, float_ge, mbind, mret, M_bind, M_ret, lift, modify_self;
  simpl.

Lemma tesseract_returns (image_path : string) :
  ∃ t c, extract_with_tesseract env image_path = Return (t, c).
Proof.
  unfold extract_with_tesseract. destruct (negb _); [by eexists _, _|].
  destruct (try_except_returns (tesseract_body env image_path) ("", 0%Q)) as [[t c] ->].
  by eexists _, _.
Qed.

Lemma easyocr_returns (image_path : string) :
  ∃ t c, extract_with_easyocr env image_path = Return (t, c).
Proof.
  unfold extract_with_easyocr. destruct (_ || _); [by eexists _, _|].
  destruct (try_except_returns (easyocr_body env image_path) ("", 0%Q)) as [[t c] ->].
  by eexists _, _.
Qed.

(** X6. [extract_text] never raises, runs Tesseract before EasyOCR and
    EasyOCR only after Tesseract, and what it returns is the outcome of
    the engine it names, unchanged; for a missing image file no engine is
    run and the method is ['none']. *)
Theorem extract_text_returns_an_engine_outcome (image_path : string) (log : list string) :
  ∃ r consulted,
    extract_text env config image_path log = (Return r, (log ++ consulted)%list)
    ∧ ((image_exists env image_path = false ∧ consulted = []
        ∧ r = {| text := ""; confidence := 0; method := "none"; success := false |})
       ∨ (image_exists env image_path = true ∧ method r = "tesseract"
          ∧ extract_with_tesseract env image_path = Return (text r, confidence r)
          ∧ (consulted = ["tesseract"] ∨ consulted = ["tesseract"; "easyocr"]))
       ∨ (image_exists env image_path = true ∧ method r = "easyocr"
          ∧ extract_with_easyocr env image_path = Return (text r, confidence r)
          ∧ consulted = ["tesseract"; "easyocr"])).
Proof.
  run_extract.
  destruct (image_exists env image_path) eqn:Hexists; simpl.
  - destruct (tesseract_returns image_path) as (ta & a & Htess). rewrite Htess. simpl.
    destruct (Qle_bool _ a && nonempty ta); simpl.
    + eexists _, ["tesseract"]. split; [reflexivity|]. right. left. simpl. eauto.
    + destruct (easyocr_returns image_path) as (tb & b & Heasy). rewrite Heasy. simpl.
      rewrite <- app_assoc. simpl.
      destruct (Qle_bool _ b && nonempty tb); simpl.
      * eexists _, _. split; [reflexivity|]. right. right. simpl. eauto.
      * destruct (Qle_bool b a); simpl; eexists _, _; (split; [reflexivity|]).
        -- right. left. simpl. eauto.
        -- right. right. simpl. eauto.
  - eexists _, []. rewrite app_nil_r. split; [reflexivity|]. left. eauto.
Qed.

(** X7. For an existing image file, [success] is [True] exactly when the
    returned confidence is at least the threshold. *)
Theorem success_iff_confidence_reaches_threshold
    (image_path : string) (log log' : list string) (r : ocr_result) :
  image_exists env image_path = true →
  extract_text env config image_path log = (Return r, log') →
  (success r = true ↔ (ocr_confidence_threshold config <= confidence r)%Q).
Proof.
  intros Hexists. run_extract. rewrite Hexists. simpl.
  destruct (tesseract_returns image_path) as (ta & a & ->). simpl.
  destruct (Qle_bool _ a) eqn:Ha; simpl.
  - destruct (nonempty ta); simpl.
    + intros [= <- _]. simpl. split; [intros _; by apply Qle_bool_iff|done].
    + destruct (easyocr_returns image_path) as (tb & b & ->). simpl.
      destruct (Qle_bool _ b && nonempty tb) eqn:Hb; simpl.
      * intros [= <- _]. simpl. apply andb_true_iff in Hb as [Hb _].
        split; [intros _; by apply Qle_bool_iff|done].
      * destruct (Qle_bool b a); simpl; intros [= <- _]; simpl; apply Qle_bool_iff.
  - destruct (easyocr_returns image_path) as (tb & b & ->). simpl.
    destruct (Qle_bool _ b && nonempty tb) eqn:Hb; simpl.
    + intros [= <- _]. simpl. apply andb_true_iff in Hb as [Hb _].
      split; [intros _; by apply Qle_bool_iff|done].
    + destruct (Qle_bool b a); simpl; intros [= <- _]; simpl; apply Qle_bool_iff.
Qed.

(** X8. The fallback: when Tesseract is not accepted (its confidence is
    below the threshold or its text is empty) and EasyOCR's confidence is
    at least the threshold with a non-empty text, EasyOCR's result is
    returned with [success=True]. *)
Theorem extract_text_accepts_easyocr
    (image_path : string) (log : list string) (ta tb : string) (a b : Q) :
  image_exists env image_path = true →
  extract_with_tesseract env image_path = Return (ta, a) →
  (a < ocr_confidence_threshold config)%Q ∨ ta = "" →
  extract_with_easyocr env image_path = Return (tb, b) →
  (ocr_confidence_threshold config <= b)%Q →
  tb ≠ "" →
  extract_text env config image_path log
  = (Return {| text := tb; confidence := b; method := "easyocr"; success := true |},
     (log ++ ["tesseract"; "easyocr"])%list).
Proof.
  intros Hexists Htess Hrej Heasy Hb Htb. run_extract.
  rewrite Hexists, Htess. simpl.
  assert (Hno : Qle_bool (ocr_confidence_threshold config) a && nonempty ta = false).
  { destruct Hrej as [Hlt | ->]; [by rewrite (float_ge_false _ _ Hlt)|apply andb_false_r]. }
  rewrite Hno, Heasy. simpl.
  apply Qle_bool_iff in Hb. rewrite Hb, (nonempty_true _ Htb). simpl.
  by rewrite <- app_assoc.
Qed.

(** X9. [success=True] does not promise a text: when Tesseract is
    confident about an empty text, EasyOCR is not accepted and is no more
    confident than Tesseract, the result is Tesseract's empty text with
    [success=True]. *)
Theorem extract_text_can_accept_empty_text
    (image_path : string) (log : list string) (tb : string) (a b : Q) :
  image_exists env image_path = true →
  extract_with_tesseract env image_path = Return ("", a) →
  (ocr_confidence_threshold config <= a)%Q →
  extract_with_easyocr env image_path = Return (tb, b) →
  (b < ocr_confidence_threshold config)%Q ∨ tb = "" →
  (b <= a)%Q →
  extract_text env config image_path log
  = (Return {| text := ""; confidence := a; method := "tesseract"; success := true |},
     (log ++ ["tesseract"; "easyocr"])%list).
Proof.
  intros Hexists Htess Ha Heasy Hrej Hba. run_extract.
  rewrite Hexists, Htess. simpl. rewrite andb_false_r, Heasy. simpl.
  assert (Hno : Qle_bool (ocr_confidence_threshold config) b && nonempty tb = false).
  { destruct Hrej as [Hlt | ->]; [by rewrite (float_ge_false _ _ Hlt)|apply andb_false_r]. }
  rewrite Hno. apply Qle_bool_iff in Ha, Hba. rewrite Hba. simpl. rewrite Ha.
  by rewrite <- app_assoc.
Qed.

End ExtractTextShape.

(** ** OCRProcessor: the confidences of the adapters *)

Section AdapterConfidence.
Variable env : ocr_env.

Lemma positive_confidences_raises (column : list (result Z)) (exc : string) :
  In (Raise exc) column → ∃ exc', positive_confidences column = Raise exc'.
Proof.
  induction column as [|conf rest IH]; intros Hin; [destruct Hin|].
  simpl. destruct conf as [n|e]; simpl; [|eauto].
  destruct Hin as [Hhere|Hrest]; [discriminate|].
  destruct (IH Hrest) as [exc' Hraise].
  destruct (0 <? n)%Z; simpl; rewrite Hraise; simpl; eauto.
Qed.

Lemma positive_confidences_are_positive (column : list (result Z)) (l : list Z) :
  positive_confidences column = Return l →
  Forall (fun n => (0 < n)%Z ∧ In (Return n) column) l.
Proof.
  revert l. induction column as [|conf rest IH]; intros l; simpl.
  - intros [= <-]. constructor.
  - destruct conf as [n|e]; simpl; [|discriminate].
    destruct (0 <? n)%Z eqn:Hpos; simpl.
    + destruct (positive_confidences rest) as [tail|e]; simpl; [|discriminate].
      intros [= <-]. constructor.
      * split; [by apply Z.ltb_lt|by left].
      * eapply Forall_impl; [apply IH; reflexivity|]. simpl. intros m [Hm Hin]. auto.
    + intros Hrest. eapply Forall_impl; [apply IH; exact Hrest|].
      simpl. intros m [Hm Hin]. auto.
Qed.

(** X10. One entry of the confidence column that [int()] rejects costs
    the whole Tesseract result: the adapter returns [("", 0.0)] whatever
    text the engine would have read. *)
Theorem unparsable_confidence_discards_the_text
    (image_path : string) (column : list (result Z)) (exc : string) :
  image_to_data_conf env (preprocess_image env image_path) = Return column →
  In (Raise exc) column →
  extract_with_tesseract env image_path = Return ("", 0%Q).
Proof.
  intros Hdata Hin. unfold extract_with_tesseract.
  destruct (negb _); [reflexivity|].
  destruct (positive_confidences_raises column exc Hin) as [exc' Hraise].
  unfold tesseract_body. rewrite Hdata. simpl. rewrite Hraise. reflexivity.
Qed.

Lemma sum_Z_bounds (l : list Z) :
  ∀ a : Z, Forall (fun n => (0 < n ≤ 100)%Z) l →
    (a ≤ fold_left Z.add l a ≤ a + 100 * Z.of_nat (length l))%Z.
Proof.
  induction l as [|n rest IH]; intros a Hall; simpl fold_left.
  - simpl. lia.
  - inversion Hall as [|? ? Hn Hrest]; subst.
    specialize (IH (a + n)%Z Hrest). simpl length. lia.
Qed.

Lemma mean_bounds (l : list Z) :
  l ≠ [] → Forall (fun n => (0 < n ≤ 100)%Z) l →
  (0 <= inject_Z (sum_Z l) / inject_Z (Z.of_nat (length l)) <= 100)%Q.
Proof.
  intros Hne Hall. pose proof (sum_Z_bounds l 0 Hall) as [Hlo Hhi].
  fold (sum_Z l) in Hlo, Hhi.
  assert (Hlen : (0 < Z.of_nat (length l))%Z) by (destruct l; [done|simpl; lia]).
  assert (Hpos : (0 < inject_Z (Z.of_nat (length l)))%Q).
  { unfold Qlt. simpl. lia. }
  split.
  - apply Qle_shift_div_l; [exact Hpos|]. unfold Qle. simpl. lia.
  - apply Qle_shift_div_r; [exact Hpos|]. unfold Qle. simpl. lia.
Qed.

Lemma percent_bounds (x : Q) : (0 <= x <= 100)%Q → (0 <= x / 100 <= 1)%Q.
Proof.
  intros [Hlo Hhi]. split.
  - apply Qle_shift_div_l; [reflexivity|]. by rewrite Qmult_0_l.
  - apply Qle_shift_div_r; [reflexivity|]. by rewrite Qmult_1_l.
Qed.

(** X11. Tesseract's confidence lies in [[0, 1]]: when every token
    confidence the engine reports is at most 100 and rounding to a float
    is monotone and exact on 0, 1 and 100, whatever
    [extract_with_tesseract] returns has a confidence between 0 and 1. *)
Theorem tesseract_confidence_in_unit_interval (image_path t : string) (c : Q) :
  (∀ x y : Q, (x <= y)%Q → (round_float env x <= round_float env y)%Q) →
  (round_float env 0 == 0)%Q → (round_float env 1 == 1)%Q →
  (round_float env 100 == 100)%Q →
  (∀ path column n, image_to_data_conf env path = Return column →
                    In (Return n) column → (n ≤ 100)%Z) →
  extract_with_tesseract env image_path = Return (t, c) →
  (0 <= c <= 1)%Q.
Proof.
  intros Hmon H0 H1 H100 Hcol.
  assert (Hround : ∀ x lo hi : Q,
            (round_float env lo == lo)%Q → (round_float env hi == hi)%Q →
            (lo <= x <= hi)%Q → (lo <= round_float env x <= hi)%Q).
  { intros x lo hi Hlo Hhi [Hx1 Hx2]. split.
    - rewrite <- Hlo. by apply Hmon.
    - rewrite <- Hhi. by apply Hmon. }
  unfold extract_with_tesseract.
  destruct (negb _); [intros [= <- <-]; split; discriminate|].
  unfold tesseract_body.
  destruct (image_to_data_conf env (preprocess_image env image_path)) as [column|e] eqn:Hdata;
    simpl; [|intros [= <- <-]; split; discriminate].
  destruct (positive_confidences column) as [confidences|e] eqn:Hconf;
    simpl; [|intros [= <- <-]; split; discriminate].
  destruct (image_to_string env _) as [txt|e]; simpl; [|intros [= <- <-]; split; discriminate].
  match goal with
  | |- context [if ?b then os_remove env ?p else Return tt] =>
      destruct (if b then os_remove env p else Return tt) as [[]|e]; simpl;
        [|intros [= <- <-]; split; discriminate]
  end.
  intros [= _ <-].
  apply (Hround _ 0%Q 1%Q H0 H1), percent_bounds.
  destruct confidences as [|n rest] eqn:Hl; [split; discriminate|].
  rewrite <- Hl in *.
  apply (Hround _ 0%Q 100%Q H0 H100), mean_bounds; [by rewrite Hl|].
  eapply Forall_impl; [exact (positive_confidences_are_positive _ _ Hconf)|].
  simpl. intros m [Hm Hin]. split; [exact Hm|]. eapply Hcol; eauto.
Qed.

Lemma sum_float_bounds (l : list Q) (bound : nat) :
  (∀ x y : Q, (x <= y)%Q → (round_float env x <= round_float env y)%Q) →
  (∀ k : nat, (k ≤ bound)%nat →
     (round_float env (inject_Z (Z.of_nat k)) == inject_Z (Z.of_nat k))%Q) →
  ∀ (acc : Q) (k : nat),
    (0 <= acc <= inject_Z (Z.of_nat k))%Q →
    (k + length l ≤ bound)%nat →
    Forall (fun c => (0 <= c <= 1)%Q) l →
    (0 <= fold_left (fun acc c => round_float env (acc + c)) l acc
       <= inject_Z (Z.of_nat (k + length l)))%Q.
Proof.
  intros Hmon Hexact. induction l as [|c rest IH]; intros acc k Hacc Hk Hall; simpl.
  - by rewrite Nat.add_0_r.
  - inversion Hall as [|? ? [Hc0 Hc1] Hrest]; subst. simpl in Hk.
    replace (k + S (length rest))%nat with (S k + length rest)%nat by lia.
    apply IH; [|lia|exact Hrest].
    destruct Hacc as [Ha0 Ha1]. split.
    + rewrite <- (Hexact 0%nat); [|lia]. apply Hmon.
      apply Qle_trans with (0 + 0)%Q; [discriminate|by apply Qplus_le_compat].
    + rewrite <- (Hexact (S k)); [|lia]. apply Hmon.
      rewrite Nat2Z.inj_succ, <- Z.add_1_r, inject_Z_plus.
      by apply Qplus_le_compat.
Qed.

Lemma mean_float_bounds (confidences : list Q) :
  (∀ x y : Q, (x <= y)%Q → (round_float env x <= round_float env y)%Q) →
  (∀ k : nat, (k ≤ length confidences)%nat →
     (round_float env (inject_Z (Z.of_nat k)) == inject_Z (Z.of_nat k))%Q) →
  confidences ≠ [] →
  Forall (fun c => (0 <= c <= 1)%Q) confidences →
  (0 <= round_float env (sum_float env confidences
                         / inject_Z (Z.of_nat (length confidences))) <= 1)%Q.
Proof.
  intros Hmon Hexact Hne Hall.
  assert (Hlen : (0 < length confidences)%nat) by (destruct confidences; [done|simpl; lia]).
  pose proof (sum_float_bounds confidences (length confidences) Hmon Hexact 0%Q 0%nat) as Hsum.
  destruct Hsum as [Hlo Hhi]; [split; discriminate|simpl; lia|exact Hall|].
  fold (sum_float env confidences) in Hlo, Hhi. simpl in Hhi.
  assert (Hpos : (0 < inject_Z (Z.of_nat (length confidences)))%Q).
  { unfold Qlt. simpl. lia. }
  split.
  - rewrite <- (Hexact 0%nat) by lia. apply Hmon. simpl.
    apply Qle_shift_div_l; [exact Hpos|]. by rewrite Qmult_0_l.
  - rewrite <- (Hexact 1%nat) by lia. apply Hmon. simpl.
    apply Qle_shift_div_r; [exact Hpos|]. by rewrite Qmult_1_l.
Qed.

(** X12. EasyOCR's confidence lies in [[0, 1]]: when every region
    confidence is between 0 and 1 and rounding to a float is monotone and
    exact on the integers up to the number of regions, whatever
    [extract_with_easyocr] returns has a confidence between 0 and 1. *)
Theorem easyocr_confidence_in_unit_interval
    (image_path t : string) (c : Q) (regions : list (string * Q)) :
  (∀ x y : Q, (x <= y)%Q → (round_float env x <= round_float env y)%Q) →
  (∀ k : nat, (k ≤ length regions)%nat →
     (round_float env (inject_Z (Z.of_nat k)) == inject_Z (Z.of_nat k))%Q) →
  readtext env image_path = Return regions →
  Forall (fun region => (0 <= snd region <= 1)%Q) regions →
  extract_with_easyocr env image_path = Return (t, c) →
  (0 <= c <= 1)%Q.
Proof.
  intros Hmon Hexact Hread Hall.
  unfold extract_with_easyocr.
  destruct (_ || _); [intros [= <- <-]; split; discriminate|].
  unfold easyocr_body. rewrite Hread. unfold mbind, result_bind, try_except.
  destruct regions as [|region rest]; [intros [= <- <-]; split; discriminate|].
  cbn [map]. intros [= _ <-].
  apply mean_float_bounds.
  - exact Hmon.
  - intros k Hk. apply Hexact. simpl in *. by rewrite length_map in Hk.
  - discriminate.
  - change (snd region :: map snd rest) with (map snd (region :: rest)).
    by apply Forall_map.
Qed.

End AdapterConfidence.

(** ** Python [str] methods and the regex engine *)

Lemma lower_char_idempotent (c : ascii) : lower_char (lower_char c) = lower_char c.
Proof. destruct c as [[] [] [] [] [] [] [] []]; reflexivity. Qed.

Lemma py_lower_idempotent (s : string) : py_lower (py_lower s) = py_lower s.
Proof.
  induction s as [|c rest IH]; [reflexivity|].
  simpl. by rewrite lower_char_idempotent, IH.
Qed.

Lemma string_of_list_ascii_app (a b : list ascii) :
  string_of_list_ascii (a ++ b)%list = string_of_list_ascii a +:+ string_of_list_ascii b.
Proof. induction a as [|c a IH]; [reflexivity|]. simpl. by rewrite IH. Qed.

Lemma list_ascii_of_py_replace_comma (s : string) :
  list_ascii_of_string (py_replace "," "" s)
  = List.filter (fun c => negb (Ascii.eqb c ",")) (list_ascii_of_string s).
Proof.
  induction s as [|c rest IH]; [reflexivity|].
  cbn [py_replace list_ascii_of_string List.filter].
  destruct (Ascii.eqb c ","); cbn [negb append list_ascii_of_string];
    [exact IH|f_equal; exact IH].
Qed.

Section RegexFacts.
Context {R : Type}.

(** A successful quantified set consumed a run of characters of the set
    and went on with what was left. *)
Lemma star_consumes (set : list Re.item) (s : list ascii)
    (k : list ascii -> option R) (r : R) :
  Re.star set s k = Some r →
  ∃ pre s', s = (pre ++ s')%list ∧ Forall (fun c => Re.set_matches set c = true) pre
            ∧ k s' = Some r.
Proof.
  induction s as [|c rest IH]; simpl; intros Hrun.
  - exists [], []. auto.
  - destruct (Re.set_matches set c) eqn:Hc.
    + destruct (Re.star set rest k) as [r'|] eqn:Hstar.
      * injection Hrun as <-. destruct (IH eq_refl) as (pre & s' & -> & Hpre & Hk).
        exists (c :: pre), s'. auto.
      * exists [], (c :: rest). auto.
    + exists [], (c :: rest). auto.
Qed.

Lemma quantified_consumes (set : list Re.item) (q : Re.quant) (s : list ascii)
    (k : list ascii -> option R) (r : R) :
  Re.quantified set q s k = Some r →
  ∃ pre s', s = (pre ++ s')%list ∧ Forall (fun c => Re.set_matches set c = true) pre
            ∧ k s' = Some r.
Proof.
  destruct q; simpl.
  - destruct s as [|c rest]; [discriminate|].
    destruct (Re.set_matches set c) eqn:Hc; [|discriminate].
    intros Hk. exists [c], rest. auto.
  - destruct s as [|c rest]; [intros Hk; exists [], []; auto|].
    destruct (Re.set_matches set c) eqn:Hc; [|intros Hk; exists [], (c :: rest); auto].
    destruct (k rest) as [r'|] eqn:Hrest.
    + intros [= <-]. exists [c], rest. auto.
    + intros Hk. exists [], (c :: rest). auto.
  - apply star_consumes.
  - destruct s as [|c rest]; [discriminate|].
    destruct (Re.set_matches set c) eqn:Hc; [|discriminate].
    intros Hstar. destruct (star_consumes _ _ _ _ Hstar) as (pre & s' & -> & Hpre & Hk).
    exists (c :: pre), s'. auto.
Qed.

End RegexFacts.

Lemma consumed_app (pre s : list ascii) : Re.consumed (pre ++ s)%list s = pre.
Proof.
  unfold Re.consumed. rewrite length_app.
  replace (length pre + length s - length s)%nat with (length pre) by lia.
  by rewrite take_app_length.
Qed.

(** Group 1 of a match is a piece of the input. *)
Lemma run_group_in_text (txt : list ascii) (p : list Re.tok) :
  ∀ (s opened pre : list ascii) (group g : option (list ascii)),
    opened = (pre ++ s)%list →
    (∃ before, txt = (before ++ opened)%list) →
    (∀ g0, group = Some g0 → ∃ before after, txt = (before ++ g0 ++ after)%list) →
    Re.run p s opened group = Some g →
    ∀ g0, g = Some g0 → ∃ before after, txt = (before ++ g0 ++ after)%list.
Proof.
  induction p as [|t p IH]; intros s opened pre group g Hopened Hsuffix Hgroup Hrun.
  - simpl in Hrun. injection Hrun as <-. exact Hgroup.
  - destruct t as [set q| |]; simpl in Hrun.
    + destruct (quantified_consumes _ _ _ _ _ Hrun) as (pre' & s' & -> & _ & Hk).
      eapply (IH s' opened (pre ++ pre')%list); [|exact Hsuffix|exact Hgroup|exact Hk].
      by rewrite Hopened, app_assoc.
    + eapply (IH s s []); [reflexivity| |exact Hgroup|exact Hrun].
      destruct Hsuffix as [before ->]. exists (before ++ pre)%list.
      by rewrite Hopened, app_assoc.
    + eapply (IH s opened pre); [exact Hopened|exact Hsuffix| |exact Hrun].
      intros g0 [= <-]. rewrite Hopened, consumed_app.
      destruct Hsuffix as [before ->]. exists before, s. by rewrite Hopened.
Qed.

Lemma search_from_in_text (p : list Re.tok) (txt : list ascii) :
  ∀ (s before : list ascii) (g : list ascii),
    txt = (before ++ s)%list →
    Re.search_from p s = Some (Some g) →
    ∃ b a, txt = (b ++ g ++ a)%list.
Proof.
  induction s as [|c rest IH]; intros before g Htxt; simpl.
  - destruct (Re.run p [] [] None) as [g'|] eqn:Hrun; [|discriminate].
    intros [= ->].
    eapply (run_group_in_text txt p [] [] [] None (Some g)); [reflexivity|eauto|done|exact Hrun|reflexivity].
  - destruct (Re.run p (c :: rest) (c :: rest) None) as [g'|] eqn:Hrun.
    + intros [= ->].
      eapply (run_group_in_text txt p (c :: rest) (c :: rest) [] None (Some g));
        [reflexivity|eauto|done|exact Hrun|reflexivity].
    + apply (IH (before ++ [c])%list). by rewrite <- app_assoc.
Qed.

(** The characters of group 1 come from the sets between the
    parentheses. *)
Lemma run_group_within (ok : ascii -> bool) (p : list Re.tok) :
  ∀ (inside : bool) (s opened pre : list ascii) (group g : option (list ascii)),
    group_within ok inside p = true →
    opened = (pre ++ s)%list →
    (inside = true → Forall (fun c => ok c = true) pre) →
    (∀ g0, group = Some g0 → Forall (fun c => ok c = true) g0) →
    Re.run p s opened group = Some g →
    ∀ g0, g = Some g0 → Forall (fun c => ok c = true) g0.
Proof.
  induction p as [|t p IH]; intros inside s opened pre group g Hwf Hopened Hpre Hgroup Hrun.
  - simpl in Hrun. injection Hrun as <-. exact Hgroup.
  - destruct t as [set q| |]; simpl in Hrun, Hwf; apply andb_true_iff in Hwf as [Hhere Hwf].
    + destruct (quantified_consumes _ _ _ _ _ Hrun) as (pre' & s' & -> & Hset & Hk).
      eapply (IH inside s' opened (pre ++ pre')%list); [exact Hwf| | |exact Hgroup|exact Hk].
      * by rewrite Hopened, app_assoc.
      * intros ->. apply Forall_app. split; [by apply Hpre|].
        eapply Forall_impl; [exact Hset|]. intros c Hc.
        unfold set_within in Hhere. rewrite forallb_forall in Hhere.
        specialize (Hhere c). rewrite Hc in Hhere. apply Hhere.
        unfold all_chars. apply in_map_iff. exists (nat_of_ascii c).
        split; [apply ascii_nat_embedding|]. apply in_seq.
        pose proof (nat_ascii_bounded c). lia.
    + eapply (IH true s s []); [exact Hwf|reflexivity|constructor|exact Hgroup|exact Hrun].
    + apply negb_true_iff in Hhere || idtac.
      eapply (IH false s opened pre); [exact Hwf|exact Hopened|done| |exact Hrun].
      intros g0 [= <-]. rewrite Hopened, consumed_app. apply Hpre. by destruct inside.
Qed.

Lemma search_from_within (ok : ascii -> bool) (p : list Re.tok) (g : list ascii) :
  group_within ok false p = true →
  ∀ s, Re.search_from p s = Some (Some g) → Forall (fun c => ok c = true) g.
Proof.
  intros Hwf. induction s as [|c rest IH]; simpl.
  - destruct (Re.run p [] [] None) as [g'|] eqn:Hrun; [|discriminate].
    intros [= ->].
    eapply (run_group_within ok p false [] [] [] None (Some g));
      [exact Hwf|reflexivity|done|done|exact Hrun|reflexivity].
  - destruct (Re.run p (c :: rest) (c :: rest) None) as [g'|] eqn:Hrun; [|exact IH].
    intros [= ->].
    eapply (run_group_within ok p false (c :: rest) (c :: rest) [] None (Some g));
      [exact Hwf|reflexivity|done|done|exact Hrun|reflexivity].
Qed.

Lemma search_in_text (pattern s g : string) :
  Re.search pattern s = Some g → ∃ before after, s = before +:+ g +:+ after.
Proof.
  unfold Re.search. destruct (Re.compile pattern) as [p|]; [|discriminate].
  destruct (Re.search_from p (list_ascii_of_string s)) as [[gl|]|] eqn:Hsearch; try discriminate.
  intros [= <-].
  destruct (search_from_in_text p (list_ascii_of_string s) (list_ascii_of_string s) [] gl
              eq_refl Hsearch) as (b & a & Heq).
  exists (string_of_list_ascii b), (string_of_list_ascii a).
  rewrite <- !string_of_list_ascii_app, <- Heq.
  by rewrite string_of_list_ascii_of_string.
Qed.

Lemma patterns_get_in_table (table : list (string * list string)) (key pattern : string) :
  pattern ∈ patterns_get table key → pattern ∈ concat (map snd table).
Proof.
  induction table as [|[k v] rest IH]; simpl; [by intros ?%elem_of_nil|].
  intros Hin. apply elem_of_app.
  destruct (String.eqb k key); [by left|right; by apply IH].
Qed.

Lemma table_groups_are_numbers :
  forallb (fun pattern =>
             match Re.compile pattern with
             | Some p => group_within number_char false p
             | None => false
             end) all_patterns = true.
Proof. vm_compute. reflexivity. Qed.

Lemma search_group_is_number (key pattern s g : string) :
  pattern ∈ patterns_get patterns key →
  Re.search pattern s = Some g →
  Forall (fun c => number_char c = true) (list_ascii_of_string g).
Proof.
  intros Hin%patterns_get_in_table Hsearch.
  pose proof table_groups_are_numbers as Hall. rewrite forallb_forall in Hall.
  specialize (Hall pattern). unfold Re.search in Hsearch.
  destruct (Re.compile pattern) as [p|]; [|discriminate].
  destruct (Re.search_from p (list_ascii_of_string s)) as [[gl|]|] eqn:Hs; try discriminate.
  injection Hsearch as <-. rewrite list_ascii_of_string_of_list_ascii.
  eapply search_from_within; [|exact Hs].
  apply Hall. by apply list_elem_of_In.
Qed.

Lemma commas_removed (l : list ascii) :
  Forall (fun c => number_char c = true) l →
  Forall (fun c => digit_or_point c = true) (List.filter (fun c => negb (Ascii.eqb c ",")) l).
Proof.
  induction 1 as [|c l Hc Hl IH]; simpl; [constructor|].
  destruct (Ascii.eqb c ",") eqn:Hcomma; simpl; [exact IH|].
  constructor; [|exact IH].
  unfold number_char in Hc. unfold digit_or_point. rewrite Hcomma in Hc.
  by rewrite orb_false_r in Hc.
Qed.

Section FieldExtractorShape.
Context `{PyFloat}.

Lemma first_parsed_some (field_patterns : list string) (text_ v : string) :
  first_parsed field_patterns text_ = Some v →
  ∃ pattern group1 x,
    pattern ∈ field_patterns
    ∧ Re.search pattern text_ = Some group1
    ∧ float_of_str (py_replace "," "" group1) = Some x
    ∧ v = str_of_float x.
Proof.
  induction field_patterns as [|pattern rest IH]; simpl; [discriminate|].
  intros Hfirst.
  assert (Hrest : first_parsed rest text_ = Some v →
                  ∃ pattern0 group1 x, pattern0 ∈ pattern :: rest
                    ∧ Re.search pattern0 text_ = Some group1
                    ∧ float_of_str (py_replace "," "" group1) = Some x
                    ∧ v = str_of_float x).
  { intros Hr. destruct (IH Hr) as (q & g & x & Hq & Hrest). exists q, g, x.
    split; [by apply list_elem_of_further|exact Hrest]. }
  destruct (Re.search pattern text_) as [group1|] eqn:Hsearch; [|by apply Hrest].
  destruct (float_of_str (py_replace "," "" group1)) as [x|] eqn:Hfloat; [|by apply Hrest].
  injection Hfirst as <-. exists pattern, group1, x.
  split; [apply list_elem_of_here|]. auto.
Qed.

(** X13. The field extractor ignores case, in the text and in the field
    name: lower-casing either beforehand changes nothing. *)
Theorem extract_field_from_text_ignores_case (text_ field_name : string) :
  extract_field_from_text (py_lower text_) field_name = extract_field_from_text text_ field_name
  ∧ extract_field_from_text text_ (py_lower field_name) = extract_field_from_text text_ field_name.
Proof.
  unfold extract_field_from_text. by rewrite !py_lower_idempotent.
Qed.

(** X14. A value the field extractor returns was read in the text: it is
    [str(float(value))] for a [value] that is, up to its commas, a piece
    of the lower-cased text. *)
Theorem extracted_value_occurs_in_text (text_ field_name v : string) :
  extract_field_from_text text_ field_name = Some v →
  ∃ (group1 before after : string) (x : pyfloat),
    py_lower text_ = before +:+ group1 +:+ after
    ∧ float_of_str (py_replace "," "" group1) = Some x
    ∧ v = str_of_float x.
Proof.
  unfold extract_field_from_text. intros Hfirst.
  destruct (first_parsed_some _ _ _ Hfirst) as (pattern & group1 & x & _ & Hsearch & Hfloat & ->).
  destruct (search_in_text _ _ _ Hsearch) as (before & after & Htext).
  exists group1, before, after, x. auto.
Qed.

(** X15. [float()] only ever sees digits and points: whatever the text
    and the field, a returned value is [str(float(value))] for a [value]
    made of the characters [0-9] and [.] alone, so neither a sign nor an
    exponent of the text reaches the number. *)
Theorem extracted_value_is_unsigned_decimal (text_ field_name v : string) :
  extract_field_from_text text_ field_name = Some v →
  ∃ (value : string) (x : pyfloat),
    Forall (fun c => digit_or_point c = true) (list_ascii_of_string value)
    ∧ float_of_str value = Some x
    ∧ v = str_of_float x.
Proof.
  unfold extract_field_from_text. intros Hfirst.
  destruct (first_parsed_some _ _ _ Hfirst) as (pattern & group1 & x & Hin & Hsearch & Hfloat & ->).
  exists (py_replace "," "" group1), x. split; [|auto].
  rewrite list_ascii_of_py_replace_comma. apply commas_removed.
  eapply search_group_is_number; eauto.
Qed.

End FieldExtractorShape.

(** ** InputProcessor: defaults *)

Section ValidateFacts.
Context `{PyFloat}.
Variable float_literal : string -> pyfloat.

Ltac run_method :=
  unfold mbind, mret, M_bind, M_ret, result_bind, lift, get_self, modify_self; simpl.

Lemma fill_sections_result (sections : list (string * json)) :
  ∀ data : gmap string json,
    ∃ ws data',
      fill_sections sections data = (Return ws, data')
      ∧ (∀ k, data' !! k = match data !! k with
                           | Some v => Some v
                           | None => default_for sections k
                           end)
      ∧ ((∀ k v, (k, v) ∈ sections → is_Some (data !! k)) → ws = []).
Proof.
  induction sections as [|[key value] rest IH]; intros data.
  - exists [], data. split; [reflexivity|]. split; [|done].
    intros k. by destruct (data !! k).
  - simpl. run_method. case_bool_decide as Hkey; simpl.
    + destruct (IH data) as (ws & data' & -> & Hlook & Hnone). simpl.
      exists ws, data'. split; [reflexivity|]. split.
      * intros k. rewrite Hlook. destruct (data !! k) eqn:Hk; [done|].
        destruct (String.eqb_spec key k) as [->|]; [|done].
        destruct Hkey. congruence.
      * intros Hall. apply Hnone. intros k v' Hin. eapply Hall. by apply list_elem_of_further.
    + destruct (IH (<[key := value]> data)) as (ws & data' & -> & Hlook & Hnone). simpl.
      eexists _, data'. split; [reflexivity|]. split.
      * intros k. rewrite Hlook.
        destruct (String.eqb_spec key k) as [->|Hne].
        -- rewrite lookup_insert_eq. destruct (data !! k) eqn:Hk; [|done].
           destruct Hkey. eauto.
        -- rewrite lookup_insert_ne by done. by destruct (data !! k).
      * intros Hall. destruct Hkey. eapply Hall. apply list_elem_of_here.
Qed.

Lemma in_section_other {A} (key k : string) (m : M json A) (data : gmap string json) :
  k ≠ key → snd (in_section key m data) !! k = data !! k.
Proof.
  intros Hk. unfold in_section.
  destruct (data !! key) as [obj|]; [|reflexivity].
  destruct (m obj) as [r obj']. simpl. by rewrite lookup_insert_ne.
Qed.

Lemma in_section_same {A} (key : string) (m : M json A) (data : gmap string json) (obj : json) :
  data !! key = Some obj →
  in_section key m data = (fst (m obj), <[key := snd (m obj)]> data).
Proof.
  intros Hkey. unfold in_section. rewrite Hkey. by destruct (m obj).
Qed.

(** What [fill_default] does to a dict: a present key is kept, a missing
    one is set. *)
Lemma fill_default_dict (key : string) (value : json) (warning : string)
    (m : gmap string json) :
  fill_default key value warning (JObj m)
  = match m !! key with
    | Some _ => (Return [], JObj m)
    | None => (Return [warning], JObj (<[key := value]> m))
    end.
Proof.
  unfold fill_default. simpl. case_bool_decide as Hin.
  - by destruct Hin as [v ->].
  - destruct (m !! key) eqn:Hkey; [destruct Hin; eauto|reflexivity].
Qed.

(** When [fill_default] returns, the key is in the object and whatever
    was in the object before still is. *)
Lemma fill_default_returned (key : string) (value : json) (warning : string)
    (obj obj' : json) (ws : list string) :
  fill_default key value warning obj = (Return ws, obj') →
  py_contains obj' key = Return true
  ∧ (∀ k, py_contains obj k = Return true → py_contains obj' k = Return true)
  ∧ (py_contains obj key = Return true → ws = [] ∧ obj' = obj).
Proof.
  unfold fill_default.
  destruct (py_contains obj key) as [[]|exc] eqn:Hc; [| |discriminate].
  - intros [= <- <-]. auto.
  - destruct obj; simpl; try discriminate.
    intros [= <- <-]. simpl. split; [|split].
    + by rewrite lookup_insert_eq.
    + intros k [= Hk]. f_equal. apply bool_decide_eq_true in Hk.
      apply bool_decide_eq_true.
      destruct (decide (key = k)) as [->|Hne]; [by rewrite lookup_insert_eq|].
      by rewrite lookup_insert_ne.
    + discriminate.
Qed.

Lemma fill_default_raised (key : string) (value : json) (warning exc : string)
    (obj obj' : json) :
  fill_default key value warning obj = (Raise exc, obj') → obj' = obj.
Proof.
  unfold fill_default.
  destruct (py_contains obj key) as [[]|e]; [discriminate| |by intros [= _ <-]].
  destruct (py_setitem obj key value); [discriminate|by intros [= _ <-]].
Qed.

(** A dict stays a dict, with every value it had. *)
Lemma fill_default_keeps_values (key : string) (value : json) (warning : string)
    (m : gmap string json) (r : result (list string)) (obj' : json) :
  fill_default key value warning (JObj m) = (r, obj') →
  ∃ m', obj' = JObj m' ∧ ∀ k v, m !! k = Some v → m' !! k = Some v.
Proof.
  rewrite fill_default_dict. destruct (m !! key) eqn:Hkey; intros [= <- <-].
  - eauto.
  - eexists. split; [reflexivity|]. intros k v Hk.
    rewrite lookup_insert_ne; [done|congruence].
Qed.

Lemma fill_project_fields_keeps_values (fields : list string) :
  ∀ (m : gmap string json) (r : result (list string)) (obj' : json),
    fill_project_fields fields (JObj m) = (r, obj') →
    ∃ m', obj' = JObj m' ∧ ∀ k v, m !! k = Some v → m' !! k = Some v.
Proof.
  induction fields as [|field rest IH]; intros m r obj'; simpl.
  - run_method. intros [= <- <-]. eauto.
  - run_method.
    destruct (fill_default field _ _ (JObj m)) as [r1 obj1] eqn:Hfill.
    destruct (fill_default_keeps_values _ _ _ _ _ _ Hfill) as (m1 & -> & Hm1).
    destruct r1 as [here|exc]; [|intros [= <- <-]; eauto].
    destruct (fill_project_fields rest (JObj m1)) as [r2 obj2] eqn:Hrest.
    destruct (IH _ _ _ Hrest) as (m2 & -> & Hm2).
    intros Hres. exists m2. split; [by destruct r2; injection Hres as <- <-|].
    intros k v Hk. apply Hm2, Hm1, Hk.
Qed.

Lemma fill_project_fields_returned (fields : list string) :
  ∀ (obj obj' : json) (ws : list string),
    fill_project_fields fields obj = (Return ws, obj') →
    (∀ f, f ∈ fields → py_contains obj' f = Return true)
    ∧ (∀ k, py_contains obj k = Return true → py_contains obj' k = Return true)
    ∧ ((∀ f, f ∈ fields → py_contains obj f = Return true) → ws = [] ∧ obj' = obj).
Proof.
  induction fields as [|field rest IH]; intros obj obj' ws; simpl.
  - run_method. intros [= <- <-]. split; [by intros f ?%elem_of_nil|auto].
  - run_method.
    destruct (fill_default field _ _ obj) as [[here|exc] obj1] eqn:Hfill; [|discriminate].
    destruct (fill_default_returned _ _ _ _ _ _ Hfill) as (Hin1 & Hkeep1 & Hsame1).
    destruct (fill_project_fields rest obj1) as [[later|exc] obj2] eqn:Hrest; [|discriminate].
    destruct (IH _ _ _ Hrest) as (Hin2 & Hkeep2 & Hsame2).
    intros [= <- <-]. split; [|split].
    + intros f [->|Hf]%elem_of_cons; [by apply Hkeep2|by apply Hin2].
    + intros k Hk. by apply Hkeep2, Hkeep1.
    + intros Hall.
      destruct (Hsame1 (Hall field (list_elem_of_here _ _))) as [-> ->].
      destruct Hsame2 as [-> ->]; [|done].
      intros f Hf. apply Hall. by apply list_elem_of_further.
Qed.


(** [validate_and_fill_defaults] step by step: the sections, then the
    project fields, then the floor area. *)
Lemma validate_steps (data : gmap string json) :
  ∃ ws1 data1,
    fill_sections (defaults float_literal) data = (Return ws1, data1)
    ∧ (∀ k, data1 !! k = match data !! k with
                          | Some v => Some v
                          | None => default_for (defaults float_literal) k
                          end)
    ∧ ((∀ k v, (k, v) ∈ defaults float_literal → is_Some (data !! k)) → ws1 = [])
    ∧ validate_and_fill_defaults float_literal data
      = match in_section "project_info" (fill_project_fields required_project_fields) data1 with
        | (Return ws2, data2) =>
            match in_section "building_data"
                    (fill_default "conditioned_floor_area" (JFloat (float_literal "2000.0"))
                       "Missing conditioned_floor_area, using default 2000 sqft") data2 with
            | (Return ws3, data3) => (Return (ws1 ++ ws2 ++ ws3)%list, data3)
            | (Raise exc, data3) => (Raise exc, data3)
            end
        | (Raise exc, data2) => (Raise exc, data2)
        end.
Proof.
  destruct (fill_sections_result (defaults float_literal) data) as (ws1 & data1 & Hfill & Hlook & Hnone).
  exists ws1, data1. split; [exact Hfill|]. split; [exact Hlook|]. split; [exact Hnone|].
  unfold validate_and_fill_defaults, mbind, M_bind, mret, M_ret. rewrite Hfill.
  destruct (in_section "project_info" _ data1) as [[ws2|exc] data2]; [|reflexivity].
  by destruct (in_section "building_data" _ data2) as [[ws3|exc] data3].
Qed.

Lemma defaults_have_sections (data1 : gmap string json) (data : gmap string json) :
  (∀ k, data1 !! k = match data !! k with
                      | Some v => Some v
                      | None => default_for (defaults float_literal) k
                      end) →
  is_Some (data1 !! "project_info") ∧ is_Some (data1 !! "building_data")
  ∧ is_Some (data1 !! "hvac") ∧ is_Some (data1 !! "duct").
Proof.
  intros Hlook. repeat split; rewrite Hlook;
    match goal with |- is_Some (match ?x with _ => _ end) => destruct x end; eauto.
Qed.

(** X16. Defaults never replace what the record has: whether
    [validate_and_fill_defaults] returns or raises, every top-level
    section other than [project_info] and [building_data] is as it was,
    and every field that the [project_info] or [building_data] dict had
    keeps its value. *)
Theorem validate_keeps_explicit_values (data : gmap string json) :
  let after := snd (validate_and_fill_defaults float_literal data) in
  (∀ k v, data !! k = Some v → k ≠ "project_info" → k ≠ "building_data" →
          after !! k = Some v)
  ∧ (∀ section_ (fields : gmap string json) f v,
       section_ = "project_info" ∨ section_ = "building_data" →
       data !! section_ = Some (JObj fields) → fields !! f = Some v →
       ∃ fields' : gmap string json,
         after !! section_ = Some (JObj fields') ∧ fields' !! f = Some v).
Proof.
  cbv zeta.
  destruct (validate_steps data) as (ws1 & data1 & _ & Hlook & _ & ->).
  set (mp := fill_project_fields required_project_fields).
  set (mb := fill_default "conditioned_floor_area" _ _).
  assert (Hkeep1 : ∀ k v, data !! k = Some v → data1 !! k = Some v).
  { intros k v Hk. by rewrite Hlook, Hk. }
  assert (Hstate : ∃ rest : gmap string json → gmap string json,
            snd (match in_section "project_info" mp data1 with
                 | (Return ws2, data2) =>
                     match in_section "building_data" mb data2 with
                     | (Return ws3, data3) => (Return (ws1 ++ ws2 ++ ws3)%list, data3)
                     | (Raise exc, data3) => (Raise exc, data3)
                     end
                 | (Raise exc, data2) => (Raise exc, data2)
                 end) = rest (snd (in_section "project_info" mp data1))
            ∧ (∀ d, rest d = d ∨ rest d = snd (in_section "building_data" mb d))).
  { destruct (in_section "project_info" mp data1) as [[ws2|exc] data2]; simpl.
    - exists (fun d => snd (in_section "building_data" mb d)). split; [|auto].
      by destruct (in_section "building_data" mb data2) as [[?|?] ?].
    - exists (fun d => d). auto. }
  destruct Hstate as (rest & -> & Hrest).
  set (data2 := snd (in_section "project_info" mp data1)).
  split.
  - intros k v Hk Hpi Hbd.
    assert (H2 : data2 !! k = Some v).
    { subst data2. rewrite in_section_other by done. by apply Hkeep1. }
    destruct (Hrest data2) as [-> | ->]; [exact H2|].
    by rewrite in_section_other.
  - intros section_ fields f v Hsec Hdata Hf.
    apply Hkeep1 in Hdata.
    assert (H2 : ∃ fields2 : gmap string json,
              data2 !! section_ = Some (JObj fields2) ∧ fields2 !! f = Some v).
    { subst data2. destruct Hsec as [-> | ->].
      - rewrite (in_section_same _ _ _ _ Hdata). simpl. rewrite lookup_insert_eq.
        destruct (mp (JObj fields)) as [r obj'] eqn:Hmp.
        destruct (fill_project_fields_keeps_values _ _ _ _ Hmp) as (m' & -> & Hm').
        simpl. eauto.
      - rewrite in_section_other by done. eauto. }
    destruct H2 as (fields2 & H2 & Hf2).
    destruct (Hrest data2) as [-> | ->]; [eauto|].
    destruct Hsec as [-> | ->].
    + rewrite in_section_other by done. eauto.
    + rewrite (in_section_same _ _ _ _ H2). simpl. rewrite lookup_insert_eq.
      destruct (mb (JObj fields2)) as [r obj'] eqn:Hmb.
      destruct (fill_default_keeps_values _ _ _ _ _ _ Hmb) as (m' & -> & Hm').
      simpl. eauto.
Qed.


Lemma fill_project_fields_complete (fields : list string) (obj : json) :
  (∀ f, f ∈ fields → py_contains obj f = Return true) →
  fill_project_fields fields obj = (Return [], obj).
Proof.
  revert obj. induction fields as [|f rest IH]; intros obj Hall; [reflexivity|].
  simpl. run_method. unfold fill_default at 1.
  rewrite (Hall f (list_elem_of_here _ _)). simpl.
  rewrite IH; [reflexivity|]. intros g Hg. apply Hall. by apply list_elem_of_further.
Qed.

(** X17. A validated record needs no defaults: when
    [validate_and_fill_defaults] has returned, running it again on the
    record it left returns no warning and changes nothing. *)
Theorem validate_is_idempotent (data data' : gmap string json) (ws : list string) :
  validate_and_fill_defaults float_literal data = (Return ws, data') →
  validate_and_fill_defaults float_literal data' = (Return [], data').
Proof.
  destruct (validate_steps data) as (ws1 & data1 & _ & Hlook & _ & ->).
  set (mp := fill_project_fields required_project_fields).
  set (mb := fill_default "conditioned_floor_area" _ _).
  destruct (defaults_have_sections _ _ Hlook) as ([pi Hpi] & [bd Hbd] & [hv Hhv] & [du Hdu]).
  rewrite (in_section_same _ mp _ _ Hpi).
  destruct (mp pi) as [[ws2|exc] pi'] eqn:Hmp; simpl; [|discriminate].
  assert (Hbd2 : <["project_info" := pi']> data1 !! "building_data" = Some bd).
  { by rewrite lookup_insert_ne. }
  rewrite (in_section_same _ mb _ _ Hbd2).
  destruct (mb bd) as [[ws3|exc] bd'] eqn:Hmb; simpl; [|discriminate].
  intros [= _ <-].
  set (final := <["building_data" := bd']> (<["project_info" := pi']> data1)).
  assert (Hfpi : final !! "project_info" = Some pi').
  { subst final. rewrite lookup_insert_ne by done. by rewrite lookup_insert_eq. }
  assert (Hfbd : final !! "building_data" = Some bd').
  { subst final. by rewrite lookup_insert_eq. }
  assert (Hfhv : final !! "hvac" = Some hv).
  { subst final. by rewrite !lookup_insert_ne. }
  assert (Hfdu : final !! "duct" = Some du).
  { subst final. by rewrite !lookup_insert_ne. }
  destruct (validate_steps final) as (w1 & again & Hfill & Hlook2 & Hnone & ->).
  assert (Hw1 : w1 = []).
  { apply Hnone. intros k v Hin. unfold defaults in Hin.
    repeat (apply elem_of_cons in Hin as [[= -> _]|Hin]; [eauto|]).
    by apply elem_of_nil in Hin. }
  assert (Hagain : again = final).
  { apply map_eq. intros k. rewrite Hlook2.
    destruct (final !! k) eqn:Hk; [done|].
    unfold defaults. cbn [default_for].
    repeat match goal with
    | |- context [String.eqb ?a k] =>
        destruct (String.eqb_spec a k) as [<-|_]; [congruence|]
    end.
    reflexivity. }
  subst w1 again. clear Hfill Hlook2 Hnone. fold mp. fold mb.
  destruct (fill_project_fields_returned _ _ _ _ Hmp) as (Hin & _ & _).
  rewrite (in_section_same _ mp _ _ Hfpi).
  unfold mp at 1 2. rewrite (fill_project_fields_complete _ _ Hin). simpl.
  rewrite (insert_id _ _ _ Hfpi).
  rewrite (in_section_same _ mb _ _ Hfbd).
  destruct (fill_default_returned _ _ _ _ _ _ Hmb) as (Hcfa & _ & _).
  destruct (mb bd') as [r o] eqn:Hmb'. subst mb. unfold fill_default in Hmb'.
  rewrite Hcfa in Hmb'. injection Hmb' as <- <-. simpl.
  by rewrite (insert_id _ _ _ Hfbd).
Qed.

End ValidateFacts.

(** ** OCR enrichment: what is written, and when *)

Section EnhanceMore.
Context `{PyFloat}.
Variable dict_order : gmap string json -> list string.

Ltac run_method :=
  unfold mbind, mret, M_bind, M_ret, result_bind, lift, get_self, modify_self; simpl.

Lemma on_section_dom (key : string) (m : json -> result unit * json)
    (input_data : gmap string json) :
  dom (snd (on_section key m input_data)) = dom input_data.
Proof.
  unfold on_section. destruct (input_data !! key) as [obj|] eqn:Hkey; [|reflexivity].
  destruct (m obj) as [r obj']. simpl. rewrite dom_insert_L.
  apply elem_of_dom_2 in Hkey. set_solver.
Qed.

(** The record [enhance_data_with_ocr] leaves: the building step alone
    when that step raised, both steps otherwise. *)
Lemma enhance_after (ocr_text : string) (input_data : gmap string json) :
  let first := on_section "building_data" (enhance_building ocr_text) input_data in
  let second := on_section "hvac" (enhance_hvac dict_order ocr_text) (snd first) in
  enhance_data_with_ocr dict_order ocr_text input_data
  = match fst first with
    | Return _ => second
    | Raise exc => (Raise exc, snd first)
    end.
Proof.
  cbv zeta. unfold enhance_data_with_ocr. run_method.
  by destruct (on_section "building_data" _ input_data) as [[[]|exc] d1].
Qed.

(** X18. Enrichment adds and removes no top-level key and touches no
    section but [building_data] and [hvac], whether it returns or raises;
    in particular a record without these two sections is left as it is,
    and what the text says is lost. *)
Theorem enhance_touches_two_sections (ocr_text : string) (input_data : gmap string json) :
  let after := snd (enhance_data_with_ocr dict_order ocr_text input_data) in
  dom after = dom input_data
  ∧ (∀ k, k ≠ "building_data" → k ≠ "hvac" → after !! k = input_data !! k)
  ∧ (input_data !! "building_data" = None → input_data !! "hvac" = None →
     after = input_data).
Proof.
  cbv zeta. rewrite enhance_after.
  set (b := enhance_building ocr_text). set (h := enhance_hvac dict_order ocr_text).
  assert (Hsnd : snd (match fst (on_section "building_data" b input_data) with
                      | Return _ => on_section "hvac" h (snd (on_section "building_data" b input_data))
                      | Raise exc => (Raise exc, snd (on_section "building_data" b input_data))
                      end)
                 = snd (on_section "building_data" b input_data)
                 ∨ snd (match fst (on_section "building_data" b input_data) with
                        | Return _ => on_section "hvac" h (snd (on_section "building_data" b input_data))
                        | Raise exc => (Raise exc, snd (on_section "building_data" b input_data))
                        end)
                   = snd (on_section "hvac" h (snd (on_section "building_data" b input_data)))).
  { destruct (fst (on_section "building_data" b input_data)); auto. }
  split; [|split].
  - destruct Hsnd as [-> | ->]; by rewrite ?on_section_dom.
  - intros k Hb Hh. destruct Hsnd as [-> | ->]; by rewrite ?on_section_other.
  - intros Hnob Hnoh.
    assert (H1 : snd (on_section "building_data" b input_data) = input_data).
    { unfold on_section. by rewrite Hnob. }
    destruct Hsnd as [-> | ->]; [exact H1|].
    rewrite H1. unfold on_section. by rewrite Hnoh.
Qed.

Lemma fill_field_fills (key ocr_text value : string) (m : gmap string json) (x : pyfloat) :
  (m !! key = None ∨ ∃ v, m !! key = Some v ∧ truthy v = false) →
  extract_field_from_text ocr_text key = Some value →
  value ≠ "" →
  float_of_str value = Some x →
  fill_field key ocr_text (JObj m) = Return (JObj (<[key := JFloat x]> m)).
Proof.
  intros Hmissing Hextract Hvalue Hfloat.
  unfold fill_field, missing_or_falsy, py_contains, py_getitem, py_setitem. run_method.
  rewrite Hextract, (nonempty_true _ Hvalue), Hfloat.
  destruct Hmissing as [Hnone | (v & Hsome & Hfalsy)].
  - rewrite Hnone. by rewrite bool_decide_eq_false_2 by (intros [? ?]; congruence).
  - rewrite Hsome. simpl. by rewrite Hfalsy.
Qed.

(** X19. A floor area that is missing or falsy in a [building_data] dict
    is filled with the float of the extracted value, and stays filled
    even when the HVAC part of the call raises afterwards. *)
Theorem enhance_fills_floor_area
    (ocr_text value : string) (input_data building_data : gmap string json) (x : pyfloat) :
  input_data !! "building_data" = Some (JObj building_data) →
  (building_data !! "conditioned_floor_area" = None
   ∨ ∃ v, building_data !! "conditioned_floor_area" = Some v ∧ truthy v = false) →
  extract_field_from_text ocr_text "conditioned_floor_area" = Some value →
  value ≠ "" →
  float_of_str value = Some x →
  snd (enhance_data_with_ocr dict_order ocr_text input_data) !! "building_data"
  = Some (JObj (<["conditioned_floor_area" := JFloat x]> building_data)).
Proof.
  intros Hbd Hmissing Hextract Hvalue Hfloat. rewrite enhance_after. cbv zeta.
  assert (Hfirst : on_section "building_data" (enhance_building ocr_text) input_data
                   = (Return tt, <["building_data" :=
                                     JObj (<["conditioned_floor_area" := JFloat x]> building_data)]>
                                   input_data)).
  { unfold on_section, enhance_building. rewrite Hbd.
    by rewrite (fill_field_fills _ _ _ _ _ Hmissing Hextract Hvalue Hfloat). }
  rewrite Hfirst. simpl. rewrite on_section_other by done. by rewrite lookup_insert_eq.
Qed.

(** A system that already holds the extracted tonnage keeps it. *)
Lemma fill_field_filled (key ocr_text value : string) (m : gmap string json) (x : pyfloat) :
  extract_field_from_text ocr_text key = Some value →
  value ≠ "" →
  float_of_str value = Some x →
  fill_field key ocr_text (JObj (<[key := JFloat x]> m)) = Return (JObj (<[key := JFloat x]> m)).
Proof.
  intros Hextract Hvalue Hfloat.
  destruct (float_nonzero x) eqn:Hx.
  - apply (fill_field_keeps_truthy _ _ _ (JFloat x)); [by rewrite lookup_insert_eq|exact Hx].
  - rewrite (fill_field_fills key ocr_text value _ x); [|right; exists (JFloat x)|done..].
    + by rewrite insert_insert_eq.
    + by rewrite lookup_insert_eq.
Qed.

Lemma enhance_systems_filled (ocr_text value : string) (x : pyfloat) (system_ids : list string) :
  extract_field_from_text ocr_text "tonnage" = Some value →
  value ≠ "" →
  float_of_str value = Some x →
  ∀ (hvac_data : gmap string json) (system_id : string) (system_data : gmap string json),
    hvac_data !! system_id = Some (JObj (<["tonnage" := JFloat x]> system_data)) →
    snd (enhance_systems ocr_text system_ids hvac_data) !! system_id
    = Some (JObj (<["tonnage" := JFloat x]> system_data)).
Proof.
  intros Hextract Hvalue Hfloat.
  induction system_ids as [|id rest IH]; intros hvac_data system_id system_data Hsys.
  - exact Hsys.
  - simpl. run_method.
    destruct (hvac_data !! id) as [sd|] eqn:Hid; [|by apply IH].
    destruct (fill_field "tonnage" ocr_text sd) as [sd'|exc] eqn:Hfill; simpl; [|exact Hsys].
    apply IH. destruct (decide (id = system_id)) as [->|Hne].
    + rewrite Hsys in Hid. injection Hid as <-.
      rewrite (fill_field_filled _ _ _ _ _ Hextract Hvalue Hfloat) in Hfill.
      injection Hfill as <-. by rewrite lookup_insert_eq.
    + by rewrite lookup_insert_ne.
Qed.

Lemma enhance_systems_fills (ocr_text value : string) (x : pyfloat) (system_ids : list string) :
  extract_field_from_text ocr_text "tonnage" = Some value →
  value ≠ "" →
  float_of_str value = Some x →
  ∀ (hvac_data : gmap string json) (system_id : string) (system_data : gmap string json),
    system_id ∈ system_ids →
    hvac_data !! system_id = Some (JObj system_data) →
    (system_data !! "tonnage" = None
     ∨ ∃ v, system_data !! "tonnage" = Some v ∧ truthy v = false) →
    fst (enhance_systems ocr_text system_ids hvac_data) = Return tt →
    snd (enhance_systems ocr_text system_ids hvac_data) !! system_id
    = Some (JObj (<["tonnage" := JFloat x]> system_data)).
Proof.
  intros Hextract Hvalue Hfloat.
  induction system_ids as [|id rest IH];
    intros hvac_data system_id system_data Hin Hsys Hmissing; [by apply elem_of_nil in Hin|].
  simpl. run_method.
  destruct (decide (id = system_id)) as [->|Hne].
  - rewrite Hsys.
    rewrite (fill_field_fills _ _ _ _ _ Hmissing Hextract Hvalue Hfloat). simpl.
    intros _. apply (enhance_systems_filled _ _ _ _ Hextract Hvalue Hfloat).
    by rewrite lookup_insert_eq.
  - apply elem_of_cons in Hin as [->|Hin]; [done|].
    destruct (hvac_data !! id) as [sd|] eqn:Hid; [|by apply IH].
    destruct (fill_field "tonnage" ocr_text sd) as [sd'|exc] eqn:Hfill; simpl; [|discriminate].
    apply IH; [exact Hin| |exact Hmissing]. by rewrite lookup_insert_ne.
Qed.

(** X20. One number serves every system: when the call returns, each
    HVAC system whose tonnage was missing or falsy holds the float of the
    one tonnage found in the text, whichever system the text meant. *)
Theorem every_system_gets_the_same_tonnage
    (ocr_text value : string) (x : pyfloat)
    (input_data hvac_data system_data : gmap string json) (system_id : string) :
  extract_field_from_text ocr_text "tonnage" = Some value →
  value ≠ "" →
  float_of_str value = Some x →
  input_data !! "hvac" = Some (JObj hvac_data) →
  system_id ∈ dict_order hvac_data →
  hvac_data !! system_id = Some (JObj system_data) →
  (system_data !! "tonnage" = None
   ∨ ∃ v, system_data !! "tonnage" = Some v ∧ truthy v = false) →
  fst (enhance_data_with_ocr dict_order ocr_text input_data) = Return tt →
  ∃ hvac_data' : gmap string json,
    snd (enhance_data_with_ocr dict_order ocr_text input_data) !! "hvac" = Some (JObj hvac_data')
    ∧ hvac_data' !! system_id = Some (JObj (<["tonnage" := JFloat x]> system_data)).
Proof.
  intros Hextract Hvalue Hfloat Hhvac Hin Hsys Hmissing. rewrite enhance_after. cbv zeta.
  set (first := on_section "building_data" (enhance_building ocr_text) input_data).
  assert (Hh1 : snd first !! "hvac" = Some (JObj hvac_data)).
  { subst first. by rewrite on_section_other. }
  destruct (fst first) as [[]|exc]; [|discriminate].
  unfold on_section at 1 2. rewrite Hh1. unfold enhance_hvac.
  pose proof (enhance_systems_fills ocr_text value x (dict_order hvac_data)
                Hextract Hvalue Hfloat hvac_data system_id system_data Hin Hsys Hmissing) as Hfill.
  destruct (enhance_systems ocr_text (dict_order hvac_data) hvac_data) as [r systems'].
  simpl in *. intros ->. exists systems'. split; [by rewrite lookup_insert_eq|by apply Hfill].
Qed.

End EnhanceMore.

(** ** Defaults and enrichment together *)

Section DefaultsThenOcr.
Context `{PyFloat}.
Variable dict_order : gmap string json -> list string.
Variable float_literal : string -> pyfloat.

(** X21. The default floor area wins over the floor plan: for a record
    without a [building_data] section, or whose [building_data] dict has
    no floor area, [validate_and_fill_defaults] sets 2000.0, and
    enrichment run on the validated record leaves 2000.0 there whatever
    the text says. *)
Theorem default_floor_area_beats_ocr
    (data data' : gmap string json) (ws : list string) (ocr_text : string) :
  float_nonzero (float_literal "2000.0") = true →
  (data !! "building_data" = None
   ∨ ∃ building_data : gmap string json,
       data !! "building_data" = Some (JObj building_data)
       ∧ building_data !! "conditioned_floor_area" = None) →
  validate_and_fill_defaults float_literal data = (Return ws, data') →
  nested_get (snd (enhance_data_with_ocr dict_order ocr_text data'))
    ["building_data"; "conditioned_floor_area"]
  = Some (JFloat (float_literal "2000.0")).
Proof.
  intros Htruthy Hmissing.
  destruct (validate_steps float_literal data) as (ws1 & data1 & _ & Hlook & _ & ->).
  set (mp := fill_project_fields required_project_fields).
  set (mb := fill_default "conditioned_floor_area" _ _).
  destruct (defaults_have_sections float_literal _ _ Hlook) as ([pi Hpi] & _).
  rewrite (in_section_same _ mp _ _ Hpi).
  destruct (mp pi) as [[ws2|exc] pi'] eqn:Hmp; simpl; [|discriminate].
  assert (Hbd : ∃ bd : gmap string json,
            <["project_info" := pi']> data1 !! "building_data" = Some (JObj bd)
            ∧ snd (mb (JObj bd)) = JObj (<["conditioned_floor_area" :=
                                              JFloat (float_literal "2000.0")]> bd)).
  { destruct Hmissing as [Hnone | (bd & Hsome & Hcfa)].
    - exists (<["conditioned_floor_area" := JFloat (float_literal "2000.0")]>
                {[ "windows" := JObj ∅; "walls" := JObj ∅;
                   "infiltration" := JObj {[ "ach50" := JFloat (float_literal "7.0") ]} ]}).
      split; [rewrite lookup_insert_ne by done; rewrite Hlook, Hnone; reflexivity|].
      subst mb. rewrite fill_default_dict, lookup_insert_eq.
      simpl. by rewrite insert_insert_eq.
    - exists bd. split; [rewrite lookup_insert_ne by done; by rewrite Hlook, Hsome|].
      subst mb. by rewrite fill_default_dict, Hcfa. }
  destruct Hbd as (bd & Hbd & Hset).
  rewrite (in_section_same _ mb _ _ Hbd). rewrite Hset.
  destruct (fst (mb (JObj bd))) as [ws3|exc]; [|discriminate].
  intros [= _ <-].
  set (bd' := <["conditioned_floor_area" := JFloat (float_literal "2000.0")]> bd).
  set (validated := <["building_data" := JObj bd']> (<["project_info" := pi']> data1)).
  assert (Hv : validated !! "building_data" = Some (JObj bd')).
  { subst validated. by rewrite lookup_insert_eq. }
  assert (Hcfa : bd' !! "conditioned_floor_area" = Some (JFloat (float_literal "2000.0"))).
  { subst bd'. by rewrite lookup_insert_eq. }
  rewrite enhance_after. cbv zeta.
  assert (Hfirst : snd (on_section "building_data" (enhance_building ocr_text) validated)
                   !! "building_data" = Some (JObj bd')).
  { rewrite (on_section_same _ _ _ _ Hv).
    by rewrite (enhance_building_keeps _ _ _ Hcfa Htruthy). }
  destruct (fst (on_section "building_data" (enhance_building ocr_text) validated)).
  - cbn [nested_get]. rewrite on_section_other by done. by rewrite Hfirst.
  - cbn [nested_get snd]. by rewrite Hfirst.
Qed.

End DefaultsThenOcr.

(** ** The pipeline of one record *)

Section PipelineFacts.
Context `{PyFloat}.
Variable env : pipeline_env.

Ltac run :=
  unfold mbind, mret, M_bind, M_ret, lift, on_indicator, with_detector, with_com,
    on_record, modify_self, get_self, try_except_M; simpl.

Lemma is_duplicate_reads (denv : detector_env) (cfg : ConfigManager)
    (r : gmap string json) (d : detector) :
  snd (is_duplicate denv cfg r d) = d.
Proof.
  unfold is_duplicate. destruct (negb _); [reflexivity|].
  unfold mbind, mret, M_bind, M_ret, lift, get_self. simpl.
  destruct (floor_plan_exists denv _) as [b|exc]; simpl; [|reflexivity].
  destruct (b && _); simpl; [reflexivity|]. by destruct (bool_decide _).
Qed.

(** What [prepare] leaves alone. *)
Definition same_but_quality (s s' : lot_state) : Prop :=
  hashes s' = hashes s ∧ com s' = com s
  ∧ processed_lots (indicator s') = processed_lots (indicator s)
  ∧ system_health (indicator s') = system_health (indicator s).

Lemma prepare_frame (r : gmap string json) (s : lot_state) :
  same_but_quality s (snd (prepare env r s)).
Proof.
  unfold prepare, same_but_quality. run.
  pose proof (is_duplicate_reads (detector_world env) (configuration env) r (hashes s)) as Hd.
  destruct (is_duplicate _ _ r (hashes s)) as [[dup|exc] d]; simpl in *; subst d; [|done].
  destruct dup; simpl; [done|].
  destruct (validate_and_fill_defaults (literal env) r) as [[ws|exc] r1]; simpl; [|done].
  destruct ws as [|w ws]; simpl;
    (destruct (floor_plan_exists _ _) as [present|exc]; simpl; [|done];
     destruct present; simpl; [|done];
     destruct (run_extract_text env _) as [ocr|exc]; simpl; [|done];
     destruct (success ocr); simpl; [|done];
     by destruct (enhance_data_with_ocr _ _ r1) as [[[]|exc] r2]).
Qed.


Local Abbreviation log_of s := (processed_lots (indicator s)).
Local Abbreviation health_of s := (system_health (indicator s)).

Lemma connect_frame (dispatch : result bool) (c : com_state) :
  ∃ b c', connect dispatch c = (Return b, c').
Proof.
  unfold connect. run. destruct dispatch as [[]|exc]; simpl; eauto.
Qed.

Lemma hand_off_cases (lot_id : string) (r : gmap string json) (s : lot_state) :
  hashes (snd (hand_off env lot_id r s)) = hashes s
  ∧ log_of (snd (hand_off env lot_id r s)) = log_of s
  ∧ (fst (hand_off env lot_id r s) = Return false →
     health_of (snd (hand_off env lot_id r s)) = "RED").
Proof.
  unfold hand_off. run.
  destruct (negb (connected (com s))) eqn:Hconn; simpl.
  - destruct (connect_frame (com_dispatch env) (com s)) as (b & c' & ->). simpl.
    destruct b; simpl; [|done].
    unfold open_template. run. destruct (negb (connected c')); simpl; [done|].
    destruct (negb (template_exists env)); simpl; [done|].
    destruct (set_energygauge_data _ r) as [[]|exc]; simpl; done.
  - unfold open_template. run. rewrite Hconn. simpl.
    destruct (negb (template_exists env)); simpl; [done|].
    destruct (set_energygauge_data _ r) as [[]|exc]; simpl;
      destruct (project (com s)); done.
Qed.

Lemma finish_cases (lot_id : string) (original r : gmap string json) (s : lot_state) :
  (∃ present,
      fst (finish env lot_id original r s) = Return true
      ∧ floor_plan_exists (detector_world env) (dict_get r "floor_plan_image") = Return present
      ∧ hashes (snd (finish env lot_id original r s))
        = marked (detector_world env) r present (hashes s)
      ∧ log_of (snd (finish env lot_id original r s)) = (log_of s ++ [(lot_id, "SUCCESS")])%list
      ∧ health_of (snd (finish env lot_id original r s)) = health_of s)
  ∨ (∃ exc,
      fst (finish env lot_id original r s) = Raise exc
      ∧ hashes (snd (finish env lot_id original r s)) = hashes s
      ∧ log_of (snd (finish env lot_id original r s)) = log_of s).
Proof.
  unfold finish. run.
  destruct (make_output_dir env _) as [[]|exc]; simpl; [|right; eauto].
  rewrite mark_as_processed_result.
  destruct (floor_plan_exists _ _) as [present|exc]; simpl; [|right; eauto].
  left. exists present. auto.
Qed.

Lemma prepare_duplicate (r : gmap string json) (s : lot_state) :
  fst (is_duplicate (detector_world env) (configuration env) r (hashes s)) = Return true →
  fst (prepare env r s) = Return None.
Proof.
  unfold prepare. run.
  destruct (is_duplicate _ _ r (hashes s)) as [[[]|e] d]; simpl; done.
Qed.

(** Without defaults to fill and without an image the record goes on as
    it came. *)
Lemma prepare_plain (r completed : gmap string json) (ws : list string) (s : lot_state) :
  fst (is_duplicate (detector_world env) (configuration env) r (hashes s)) = Return false →
  validate_and_fill_defaults (literal env) r = (Return ws, completed) →
  floor_plan_exists (detector_world env) (dict_get completed "floor_plan_image") = Return false →
  fst (prepare env r s) = Return (Some completed).
Proof.
  unfold prepare. run.
  destruct (is_duplicate _ _ r (hashes s)) as [[[]|e] d]; simpl; [done| |done].
  intros _ -> Hex. simpl. destruct ws; simpl; by rewrite Hex.
Qed.

(** Every way the body of the [try] can end. *)
Lemma pipeline_body_cases (r : gmap string json) (s : lot_state) :
  let res := fst (pipeline_body env r s) in
  let s' := snd (pipeline_body env r s) in
  let denv := detector_world env in
  (res = Return true
   ∧ fst (is_duplicate denv (configuration env) r (hashes s)) = Return true
   ∧ hashes s' = hashes s ∧ com s' = com s ∧ log_of s' = log_of s
   ∧ health_of s' = health_of s ∧ data_quality (indicator s') = "YELLOW")
  ∨ (∃ completed present,
       res = Return true
       ∧ fst (is_duplicate denv (configuration env) r (hashes s)) = Return false
       ∧ fst (prepare env r s) = Return (Some completed)
       ∧ floor_plan_exists denv (dict_get completed "floor_plan_image") = Return present
       ∧ hashes s' = marked denv completed present (hashes s)
       ∧ log_of s' = (log_of s ++ [(lot_label env r, "SUCCESS")])%list)
  ∨ (res = Return false ∧ hashes s' = hashes s ∧ log_of s' = log_of s
     ∧ health_of s' = "RED"
     ∧ fst (is_duplicate denv (configuration env) r (hashes s)) ≠ Return true)
  ∨ (∃ exc, res = Raise exc ∧ hashes s' = hashes s ∧ log_of s' = log_of s
       ∧ fst (is_duplicate denv (configuration env) r (hashes s)) ≠ Return true).
Proof.
  cbv zeta. destruct (pipeline_body env r s) as [res s'] eqn:Hbody. cbn [fst snd].
  revert Hbody. unfold pipeline_body. unfold mbind, M_bind.
  pose proof (prepare_frame r s) as (Hh & Hc & Hl & Hs).
  destruct (prepare env r s) as [[[completed|]|exc] s1] eqn:Hprep; cbn [fst snd] in *.
  - (* not a duplicate *)
    assert (Hdup : fst (is_duplicate (detector_world env) (configuration env) r (hashes s))
                   = Return false).
    { revert Hprep. unfold prepare. run.
      destruct (is_duplicate _ _ r (hashes s)) as [[[]|e] d]; simpl; done. }
    pose proof (hand_off_cases (lot_label env r) completed s1) as (Hh2 & Hl2 & Hred).
    destruct (hand_off env (lot_label env r) completed s1) as [[[]|exc] s2]; cbn [fst snd] in *.
    + destruct (finish_cases (lot_label env r) r completed s2)
        as [(present & Hres & Hex & Hm & Hlog & _) | (exc & Hres & Hm & Hlog)];
        destruct (finish env (lot_label env r) r completed s2) as [res2 s3];
        cbn [fst snd] in *; intros [= <- <-].
      * right. left. exists completed, present.
        rewrite Hm, Hlog, Hh2, Hl2, Hh, Hl. auto 10.
      * right. right. right. exists exc. rewrite Hm, Hlog, Hh2, Hl2, Hh, Hl, Hdup.
        repeat split; done.
    + intros [= <- <-]. right. right. left. rewrite Hh2, Hl2, Hh, Hl, Hdup.
      repeat split; auto; done.
    + intros [= <- <-]. right. right. right. exists exc. rewrite Hh2, Hl2, Hh, Hl, Hdup.
      repeat split; done.
  - (* a duplicate *)
    intros [= <- <-]. left. revert Hprep. unfold prepare. run.
    pose proof (is_duplicate_reads (detector_world env) (configuration env) r (hashes s)) as Hd.
    destruct (is_duplicate _ _ r (hashes s)) as [[[]|e] d]; simpl in *; [| |discriminate].
    + intros [= <-]. simpl. subst d. auto 10.
    + destruct (validate_and_fill_defaults (literal env) r) as [[ws|e] r1]; simpl; [|discriminate].
      destruct ws as [|w ws]; simpl;
        (destruct (floor_plan_exists _ _) as [present|e]; simpl; [|discriminate];
         destruct present; simpl; [|discriminate];
         destruct (run_extract_text env _) as [ocr|e]; simpl; [|discriminate];
         destruct (success ocr); simpl; [|discriminate];
         by destruct (enhance_data_with_ocr _ _ r1) as [[[]|e] r2]).
  - intros [= <- <-]. right. right. right. exists exc.
    repeat split; [done..|]. intros Hdup.
    pose proof (prepare_duplicate _ _ Hdup) as Hp. rewrite Hprep in Hp. discriminate.
Qed.


Lemma on_error_result (r : gmap string json) (exc : string) (s : lot_state) :
  ∃ s', on_error env r exc s = (Return false, s')
    ∧ hashes s' = hashes s ∧ com s' = com s
    ∧ log_of s' = (log_of s ++ [(lot_label env r, "FAILED")])%list
    ∧ health_of s' = "RED".
Proof. unfold on_error. run. eexists. split; [reflexivity|]. auto. Qed.

(** X22. [process_single_lot] never raises, and a record for which it
    returns [False] is not marked: the fingerprint set is as it was, so
    the record is tried again when it comes back. *)
Theorem failed_record_is_not_marked (input_file : string) (s : lot_state) :
  ∃ b s', process_single_lot env input_file s = (Return b, s')
    ∧ (b = false → hashes s' = hashes s).
Proof.
  unfold process_single_lot.
  destruct (load_json (json_file env) input_file) as [r|]; [|by exists false, s].
  unfold try_except_M.
  destruct (pipeline_body_cases r s)
    as [(Hres & _) | [(c & p & Hres & _) | [(Hres & Hh & _) | (exc & Hres & Hh & _)]]];
    destruct (pipeline_body env r s) as [res s1]; cbn [fst snd] in *; subst res.
  - by exists true, s1.
  - by exists true, s1.
  - by exists false, s1.
  - destruct (on_error_result r exc s1) as (s2 & -> & Hh2 & _).
    exists false, s2. split; [reflexivity|]. intros _. by rewrite Hh2.
Qed.

(** X23. A record that was read and for which [process_single_lot]
    returns [False] leaves [system_health] RED. *)
Theorem failed_record_turns_health_red
    (input_file : string) (r : gmap string json) (s s' : lot_state) :
  load_json (json_file env) input_file = Some r →
  process_single_lot env input_file s = (Return false, s') →
  system_health (indicator s') = "RED".
Proof.
  intros Hload. unfold process_single_lot. rewrite Hload. unfold try_except_M.
  destruct (pipeline_body_cases r s)
    as [(Hres & _) | [(c & p & Hres & _) | [(Hres & _ & _ & Hred & _) | (exc & Hres & _)]]];
    destruct (pipeline_body env r s) as [res s1]; cbn [fst snd] in *; subst res.
  - discriminate.
  - discriminate.
  - by intros [= <-].
  - destruct (on_error_result r exc s1) as (s2 & -> & _ & _ & _ & Hred).
    by intros [= <-].
Qed.

(** X24. The outcome log only grows, by at most one entry a call: a
    SUCCESS entry only when the call returns [True], a FAILED entry only
    when it returns [False]. *)
Theorem outcome_log_gains_at_most_one_entry
    (input_file : string) (s s' : lot_state) (b : bool) :
  process_single_lot env input_file s = (Return b, s') →
  processed_lots (indicator s') = processed_lots (indicator s)
  ∨ (∃ lot_id, processed_lots (indicator s')
               = (processed_lots (indicator s) ++ [(lot_id, "SUCCESS")])%list ∧ b = true)
  ∨ (∃ lot_id, processed_lots (indicator s')
               = (processed_lots (indicator s) ++ [(lot_id, "FAILED")])%list ∧ b = false).
Proof.
  unfold process_single_lot.
  destruct (load_json (json_file env) input_file) as [r|]; [|intros [= <- <-]; by left].
  unfold try_except_M.
  destruct (pipeline_body_cases r s)
    as [(Hres & _ & _ & _ & Hl & _)
       | [(c & p & Hres & _ & _ & _ & _ & Hl)
         | [(Hres & _ & Hl & _) | (exc & Hres & _ & Hl & _)]]];
    destruct (pipeline_body env r s) as [res s1]; cbn [fst snd] in *; subst res.
  - intros [= <- <-]. by left.
  - intros [= <- <-]. right. left. eauto.
  - intros [= <- <-]. by left.
  - destruct (on_error_result r exc s1) as (s2 & -> & _ & _ & Hl2 & _).
    intros [= <- <-]. right. right. exists (lot_label env r). by rewrite Hl2, Hl.
Qed.

Lemma pipeline_body_duplicate (r : gmap string json) (s : lot_state) :
  fst (is_duplicate (detector_world env) (configuration env) r (hashes s)) = Return true →
  ∃ s', pipeline_body env r s = (Return true, s')
    ∧ hashes s' = hashes s ∧ com s' = com s ∧ log_of s' = log_of s
    ∧ health_of s' = health_of s ∧ data_quality (indicator s') = "YELLOW".
Proof.
  intros Hdup.
  destruct (pipeline_body_cases r s)
    as [(Hres & _ & Hrest)
       | [(c & p & _ & Hno & _) | [(_ & _ & _ & _ & Hno) | (exc & _ & _ & _ & Hno)]]];
    [|congruence..].
  destruct (pipeline_body env r s) as [res s1]. cbn [fst snd] in *. subst res. eauto.
Qed.

(** X25. A duplicate is skipped: the call returns [True] with
    [data_quality] YELLOW, and the fingerprint set, the COM connection,
    the outcome log and [system_health] are as they were. *)
Theorem duplicate_is_skipped (input_file : string) (r : gmap string json) (s : lot_state) :
  load_json (json_file env) input_file = Some r →
  fst (is_duplicate (detector_world env) (configuration env) r (hashes s)) = Return true →
  ∃ s', process_single_lot env input_file s = (Return true, s')
    ∧ hashes s' = hashes s ∧ com s' = com s
    ∧ processed_lots (indicator s') = processed_lots (indicator s)
    ∧ system_health (indicator s') = system_health (indicator s)
    ∧ data_quality (indicator s') = "YELLOW".
Proof.
  intros Hload Hdup. unfold process_single_lot. rewrite Hload. unfold try_except_M.
  destruct (pipeline_body_duplicate r s Hdup) as (s' & -> & Hrest). eauto.
Qed.


Lemma is_duplicate_without_image (denv : detector_env) (cfg : ConfigManager)
    (r : gmap string json) (d : detector) :
  floor_plan_exists denv (dict_get r "floor_plan_image") = Return false →
  fst (is_duplicate denv cfg r d)
  = Return (duplicate_detection_enabled cfg && bool_decide (content_hash denv r ∈ processed_hashes d)).
Proof.
  intros Hex. unfold is_duplicate.
  destruct (duplicate_detection_enabled cfg); simpl; [|reflexivity].
  unfold mbind, mret, M_bind, M_ret, lift, get_self. rewrite Hex. simpl.
  by destruct (bool_decide _).
Qed.

Lemma validate_other_keys (data data' : gmap string json) (res : result (list string))
    (k : string) :
  validate_and_fill_defaults (literal env) data = (res, data') →
  k ≠ "project_info" → k ≠ "building_data" → k ≠ "hvac" → k ≠ "duct" →
  data' !! k = data !! k.
Proof.
  destruct (validate_steps (literal env) data) as (ws1 & data1 & _ & Hlook & _ & ->).
  intros Hres Hpi Hbd Hhv Hdu.
  assert (H1 : data1 !! k = data !! k).
  { rewrite Hlook. destruct (data !! k); [reflexivity|].
    unfold defaults. cbn [default_for].
    repeat match goal with
    | |- context [String.eqb ?a k] => destruct (String.eqb_spec a k) as [<-|_]; [done|]
    end. reflexivity. }
  rewrite <- H1. revert Hres.
  set (mp := in_section "project_info" _).
  set (mb := in_section "building_data" _).
  pose proof (in_section_other "project_info" k
                (fill_project_fields required_project_fields) data1 Hpi) as H2.
  fold mp in H2. destruct (mp data1) as [[ws2|exc] data2]; simpl in H2.
  - pose proof (in_section_other "building_data" k
                  (fill_default "conditioned_floor_area" (JFloat (literal env "2000.0"))
                     "Missing conditioned_floor_area, using default 2000 sqft") data2 Hbd) as H3.
    fold mb in H3. destruct (mb data2) as [[ws3|exc] data3]; simpl in H3;
      intros [= _ <-]; congruence.
  - intros [= _ <-]. exact H2.
Qed.

(** X26. The same complete record twice: when a record needs no default
    and has no image to read, and a first call has returned [True], a
    second call on the same file returns [True] as a skip, leaving the
    fingerprint set, the COM connection and the outcome log as the first
    call left them. *)
Theorem second_submission_is_skipped
    (input_file : string) (r : gmap string json) (ws : list string) (s s1 : lot_state) :
  duplicate_detection_enabled (configuration env) = true →
  load_json (json_file env) input_file = Some r →
  validate_and_fill_defaults (literal env) r = (Return ws, r) →
  floor_plan_exists (detector_world env) (dict_get r "floor_plan_image") = Return false →
  process_single_lot env input_file s = (Return true, s1) →
  ∃ s2, process_single_lot env input_file s1 = (Return true, s2)
    ∧ hashes s2 = hashes s1 ∧ com s2 = com s1
    ∧ processed_lots (indicator s2) = processed_lots (indicator s1).
Proof.
  intros Hon Hload Hvalid Hex. unfold process_single_lot. rewrite Hload. unfold try_except_M.
  assert (Hdup : fst (is_duplicate (detector_world env) (configuration env) r (hashes s1))
                 = Return true →
          ∃ s2, (let (r0, s') := pipeline_body env r s1 in
                 match r0 with Return a => (Return a, s') | Raise exc => on_error env r exc s' end)
                = (Return true, s2)
            ∧ hashes s2 = hashes s1 ∧ com s2 = com s1 ∧ log_of s2 = log_of s1).
  { intros Hd. destruct (pipeline_body_duplicate r s1 Hd) as (s2 & -> & H1 & H2 & H3 & _). eauto. }
  destruct (pipeline_body_cases r s)
    as [(Hres & Hd & Hh & _)
       | [(c & p & Hres & Hd & Hprep & Hp & Hh & _)
         | [(Hres & _) | (exc & Hres & _)]]];
    destruct (pipeline_body env r s) as [res s0]; cbn [fst snd] in *; subst res.
  - intros [= <-]. apply Hdup. by rewrite Hh.
  - intros [= <-]. apply Hdup.
    rewrite (prepare_plain r r ws s Hd Hvalid Hex) in Hprep. injection Hprep as <-.
    rewrite Hex in Hp. injection Hp as <-.
    rewrite (is_duplicate_without_image _ _ _ _ Hex), Hon, Hh. simpl.
    rewrite bool_decide_eq_true_2; [reflexivity|]. unfold marked. simpl. set_solver.
  - discriminate.
  - destruct (on_error_result r exc s0) as (s2 & -> & _). discriminate.
Qed.

(** X27. A record that needed defaults is not recognised when it comes
    back: it is marked under the fingerprint of the record with its
    defaults filled, so when that fingerprint differs from the one of the
    record as submitted (and the record has no image), the duplicate
    check on the same file still answers [False] after a successful
    call. *)
Theorem resubmission_after_defaults_is_not_recognised
    (input_file : string) (r completed : gmap string json) (ws : list string)
    (s s1 : lot_state) :
  load_json (json_file env) input_file = Some r →
  fst (is_duplicate (detector_world env) (configuration env) r (hashes s)) = Return false →
  validate_and_fill_defaults (literal env) r = (Return ws, completed) →
  floor_plan_exists (detector_world env) (dict_get r "floor_plan_image") = Return false →
  content_hash (detector_world env) completed ≠ content_hash (detector_world env) r →
  process_single_lot env input_file s = (Return true, s1) →
  fst (is_duplicate (detector_world env) (configuration env) r (hashes s1)) = Return false.
Proof.
  intros Hload Hd Hvalid Hex Hdiff. unfold process_single_lot. rewrite Hload.
  unfold try_except_M.
  assert (Himg : dict_get completed "floor_plan_image" = dict_get r "floor_plan_image").
  { unfold dict_get. by rewrite (validate_other_keys _ _ _ "floor_plan_image" Hvalid). }
  assert (Hex' : floor_plan_exists (detector_world env) (dict_get completed "floor_plan_image")
                 = Return false) by (by rewrite Himg).
  destruct (pipeline_body_cases r s)
    as [(Hres & Hd' & _)
       | [(c & p & Hres & _ & Hprep & Hp & Hh & _)
         | [(Hres & _) | (exc & Hres & _)]]];
    destruct (pipeline_body env r s) as [res s0]; cbn [fst snd] in *; subst res.
  - congruence.
  - intros [= <-].
    rewrite (prepare_plain r completed ws s Hd Hvalid Hex') in Hprep. injection Hprep as <-.
    rewrite Hex' in Hp. injection Hp as <-.
    rewrite (is_duplicate_without_image _ _ _ (hashes s) Hex) in Hd.
    rewrite (is_duplicate_without_image _ _ _ _ Hex).
    destruct (duplicate_detection_enabled (configuration env)); [|reflexivity].
    simpl in *. injection Hd as Hd. apply bool_decide_eq_false in Hd.
    f_equal. apply bool_decide_eq_false. rewrite Hh. unfold marked. simpl. set_solver.
  - discriminate.
  - destruct (on_error_result r exc s0) as (s2 & -> & _). discriminate.
Qed.

End PipelineFacts.

(** ** The batch: input files, cancellation, counters *)

#[local] Instance str_le_total : Total str_le.
Proof. intros a b. apply String.leb_total. Qed.

(** X28. [get_input_files] returns the names of the directory that end
    in [.json] in any case, each joined to the directory and each as
    often as it is listed, in ascending order; when the directory cannot
    be listed it returns the empty list. *)
Theorem get_input_files_sorted_json
    (listdir : string -> result (list string)) (path_join : string -> string -> string)
    (inputs_dir : string) :
  match listdir inputs_dir with
  | Return names =>
      Sorted str_le (get_input_files listdir path_join inputs_dir)
      ∧ get_input_files listdir path_join inputs_dir
        ≡ₚ map (path_join inputs_dir) (List.filter is_json_name names)
  | Raise _ => get_input_files listdir path_join inputs_dir = []
  end.
Proof.
  unfold get_input_files. destruct (listdir inputs_dir) as [names|exc]; simpl; [|reflexivity].
  split; [apply Sorted_merge_sort, _|apply merge_sort_Permutation].
Qed.

Section BatchMore.
Variable W : Type.
Variable process_single_lot : string -> automation W -> bool * automation W.

(** X29. A batch cancelled before its first file reports GREEN: when the
    GUI's [processing] flag is already off, no file is processed, both
    counters stay at zero and [system_health] is set to GREEN whatever it
    was. *)
Theorem cancelled_batch_ends_green (input_files : list string) (a : automation W) :
  input_files ≠ [] →
  stop_requested W a = true →
  process_all_inputs W process_single_lot input_files a
  = with_health W "GREEN" "All lots processed successfully" a.
Proof.
  intros Hfiles Hstop. unfold process_all_inputs.
  destruct input_files as [|input_file rest]; [done|].
  simpl. by rewrite Hstop.
Qed.

Lemma batch_loop_total (input_files : list string) :
  (∀ f x, stop_requested W x = false →
          stop_requested W (snd (process_single_lot f x)) = false) →
  ∀ (processed_count failed_count : nat) (a : automation W),
    stop_requested W a = false →
    (fst (fst (batch_loop W process_single_lot input_files processed_count failed_count a))
     + snd (fst (batch_loop W process_single_lot input_files processed_count failed_count a))
     = processed_count + failed_count + length input_files)%nat.
Proof.
  intros Hkeep. induction input_files as [|input_file rest IH];
    intros p f a Hrun; simpl; [lia|].
  rewrite Hrun.
  pose proof (Hkeep input_file a Hrun) as Hnext.
  destruct (process_single_lot input_file a) as [[] a']; simpl in Hnext;
    rewrite (IH _ _ _ Hnext); lia.
Qed.

(** X30. A batch that is not cancelled counts every file once: when no
    stop is requested before the batch (no GUI is attached, or its
    [processing] flag is on) nor after any record, the successes and the
    failures the loop counts add up to the number of input files. *)
Theorem batch_counts_every_file (input_files : list string) (a : automation W) :
  stop_requested W a = false →
  (∀ f x, stop_requested W x = false →
          stop_requested W (snd (process_single_lot f x)) = false) →
  (fst (fst (batch_loop W process_single_lot input_files 0 0 a))
   + recorded_failures W process_single_lot input_files a
   = length input_files)%nat.
Proof.
  intros Hrun Hkeep. unfold recorded_failures.
  by rewrite (batch_loop_total input_files Hkeep 0 0 a Hrun).
Qed.

End BatchMore.
